(** * generate-latest-json.py: the update-manifest builder of code-switch

    A shallow embedding of [scripts/generate-latest-json.py] and the
    properties its specification states about it.

    Conventions of the embedding.
    - [bytes] is [list byte]; a Python [str] is a [string] whose characters
      are the code points below 256 (one [ascii] per code point).
      [str.isspace] and [str.lower] are written out for that range.
    - [hashlib.sha256] is modelled by the FIPS 180-4 algorithm on 32-bit
      words held in [Z], with the buffering of an incremental hasher.
    - The file system is a record: for each path the regular files of the
      directory it names, in directory order, and the content of
      [./RELEASE_NOTES.md]; both optional.  Every file can be read, the
      output file can be written, every name is within the limits of the
      file system, names are compared as they are written, and text is
      decoded as UTF-8.
    - A fallible call returns a [res]: its value, the exception it raises,
      or [Unsupported] where the embedding does not follow the library
      (a glob pattern with a wildcard or a separator, the pattern [..],
      a regular expression
      beyond literals and dots, text beyond code point 255).
    - [main] returns the outcome of the process: its exit status, what it
      printed (one [message] for each [print]) and the manifest it wrote,
      if any; or the exception that ended it. *)

From Stdlib Require Import String Ascii.
From Stdlib Require Import ZArith List Bool Lia Arith.
From Stdlib Require Import Init.Byte.
From Equations Require Import Equations.
Import ListNotations.

Local Open Scope Z_scope.

(** ** hashlib.sha256 *)

Module Hashlib.

Definition bytes := list byte.

Definition wrap32 (x : Z) : Z := x mod 2 ^ 32.

Definition add32 (x y : Z) : Z := wrap32 (x + y).

Definition rotr (n x : Z) : Z :=
  wrap32 (Z.lor (Z.shiftr x n) (Z.shiftl x (32 - n))).

Definition shr (n x : Z) : Z := Z.shiftr x n.

Definition not32 (x : Z) : Z := Z.lxor x (2 ^ 32 - 1).

Definition Ch (x y z : Z) : Z := Z.lxor (Z.land x y) (Z.land (not32 x) z).

Definition Maj (x y z : Z) : Z :=
  Z.lxor (Z.lxor (Z.land x y) (Z.land x z)) (Z.land y z).

Definition Sigma0 (x : Z) : Z := Z.lxor (Z.lxor (rotr 2 x) (rotr 13 x)) (rotr 22 x).
Definition Sigma1 (x : Z) : Z := Z.lxor (Z.lxor (rotr 6 x) (rotr 11 x)) (rotr 25 x).
Definition sigma0 (x : Z) : Z := Z.lxor (Z.lxor (rotr 7 x) (rotr 18 x)) (shr 3 x).
Definition sigma1 (x : Z) : Z := Z.lxor (Z.lxor (rotr 17 x) (rotr 19 x)) (shr 10 x).

(** The round constants, eight to a row. *)
Definition K256 : list Z :=
  concat [
    [ 0x428a2f98; 0x71374491; 0xb5c0fbcf; 0xe9b5dba5;
      0x3956c25b; 0x59f111f1; 0x923f82a4; 0xab1c5ed5 ];
    [ 0xd807aa98; 0x12835b01; 0x243185be; 0x550c7dc3;
      0x72be5d74; 0x80deb1fe; 0x9bdc06a7; 0xc19bf174 ];
    [ 0xe49b69c1; 0xefbe4786; 0x0fc19dc6; 0x240ca1cc;
      0x2de92c6f; 0x4a7484aa; 0x5cb0a9dc; 0x76f988da ];
    [ 0x983e5152; 0xa831c66d; 0xb00327c8; 0xbf597fc7;
      0xc6e00bf3; 0xd5a79147; 0x06ca6351; 0x14292967 ];
    [ 0x27b70a85; 0x2e1b2138; 0x4d2c6dfc; 0x53380d13;
      0x650a7354; 0x766a0abb; 0x81c2c92e; 0x92722c85 ];
    [ 0xa2bfe8a1; 0xa81a664b; 0xc24b8b70; 0xc76c51a3;
      0xd192e819; 0xd6990624; 0xf40e3585; 0x106aa070 ];
    [ 0x19a4c116; 0x1e376c08; 0x2748774c; 0x34b0bcb5;
      0x391c0cb3; 0x4ed8aa4a; 0x5b9cca4f; 0x682e6ff3 ];
    [ 0x748f82ee; 0x78a5636f; 0x84c87814; 0x8cc70208;
      0x90befffa; 0xa4506ceb; 0xbef9a3f7; 0xc67178f2 ] ].

(** The eight working words of the hash. *)
Record words8 : Type := W8 {
  wa : Z; wb : Z; wc : Z; wd : Z; we : Z; wf : Z; wg : Z; wh : Z
}.

Definition H256_init : words8 :=
  W8 0x6a09e667 0xbb67ae85 0x3c6ef372 0xa54ff53a
     0x510e527f 0x9b05688c 0x1f83d9ab 0x5be0cd19.

Definition byte_val (b : byte) : Z := Z.of_N (Byte.to_N b).

(** Big-endian words of a block: four bytes per word. *)
Fixpoint be_words (bs : bytes) : list Z :=
  match bs with
  | b0 :: b1 :: b2 :: b3 :: rest =>
      (byte_val b0 * 2 ^ 24 + byte_val b1 * 2 ^ 16
       + byte_val b2 * 2 ^ 8 + byte_val b3) :: be_words rest
  | _ => []
  end.

(** Message schedule: [n] more words appended to the first sixteen. *)
Fixpoint schedule (n : nat) (w : list Z) : list Z :=
  match n with
  | O => w
  | S n' =>
      let t := length w in
      let x :=
        add32 (add32 (sigma1 (nth (t - 2) w 0)) (nth (t - 7) w 0))
              (add32 (sigma0 (nth (t - 15) w 0)) (nth (t - 16) w 0)) in
      schedule n' (w ++ [x])
  end.

Definition round (s : words8) (kw : Z * Z) : words8 :=
  let '(W8 a b c d e f g h) := s in
  let t1 := add32 (add32 (add32 (add32 h (Sigma1 e)) (Ch e f g)) (fst kw)) (snd kw) in
  let t2 := add32 (Sigma0 a) (Maj a b c) in
  W8 (add32 t1 t2) a b c (add32 d t1) e f g.

Definition compress (h : words8) (block : bytes) : words8 :=
  let w := schedule 48 (be_words block) in
  let s := fold_left round (combine K256 w) h in
  W8 (add32 (wa h) (wa s)) (add32 (wb h) (wb s))
     (add32 (wc h) (wc s)) (add32 (wd h) (wd s))
     (add32 (we h) (we s)) (add32 (wf h) (wf s))
     (add32 (wg h) (wg s)) (add32 (wh h) (wh s)).

(** Consume [n] blocks of 64 bytes from the front of [bs]. *)
Fixpoint absorb_blocks (n : nat) (h : words8) (bs : bytes) : words8 * bytes :=
  match n with
  | O => (h, bs)
  | S n' => absorb_blocks n' (compress h (firstn 64 bs)) (skipn 64 bs)
  end.

Definition absorb (h : words8) (bs : bytes) : words8 * bytes :=
  absorb_blocks (length bs / 64) h bs.

(** The hash object: chaining value, bytes not yet forming a block, and
    the number of bytes fed so far. *)
Record hasher : Type := Hasher {
  chain : words8;
  pending : bytes;
  fed : Z
}.

(** [hashlib.sha256()] *)
Definition sha256_new : hasher := Hasher H256_init [] 0.

(** [h.update(data)] *)
Definition update (h : hasher) (data : bytes) : hasher :=
  let '(c, rest) := absorb (chain h) (pending h ++ data) in
  Hasher c rest (fed h + Z.of_nat (length data)).

Definition byte_of_Z (x : Z) : byte :=
  match Byte.of_N (Z.to_N (x mod 256)) with
  | Some b => b
  | None => x00
  end.

(** The length field: eight bytes, big-endian. *)
Definition be64 (x : Z) : bytes :=
  map (fun i => byte_of_Z (Z.shiftr x (8 * i))) [7; 6; 5; 4; 3; 2; 1; 0].

(** Padding of a message of [len] bytes: a one bit, zero bits up to 56
    modulo 64 bytes, then the bit length. *)
Definition padding (len : Z) : bytes :=
  x80 :: repeat x00 (Z.to_nat ((55 - len) mod 64))
      ++ be64 ((8 * len) mod 2 ^ 64).

Definition hex_digit (n : Z) : ascii :=
  nth (Z.to_nat n)
      ["0"; "1"; "2"; "3"; "4"; "5"; "6"; "7";
       "8"; "9"; "a"; "b"; "c"; "d"; "e"; "f"]%char "0"%char.

(** Eight lowercase hex digits of a 32-bit word. *)
Definition hex_word (w : Z) : list ascii :=
  map (fun i => hex_digit (Z.land (Z.shiftr w (4 * i)) 15))
      [7; 6; 5; 4; 3; 2; 1; 0].

Definition hex_words8 (s : words8) : string :=
  string_of_list_ascii
    (hex_word (wa s) ++ hex_word (wb s) ++ hex_word (wc s) ++ hex_word (wd s)
     ++ hex_word (we s) ++ hex_word (wf s) ++ hex_word (wg s) ++ hex_word (wh s)).

(** [h.hexdigest()] *)
Definition hexdigest (h : hasher) : string :=
  hex_words8 (fst (absorb (chain h) (pending h ++ padding (fed h)))).

(** Reference: FIPS 180-4 on the whole message, padded first and then cut
    into blocks. *)
Fixpoint blocks (n : nat) (bs : bytes) : list bytes :=
  match n with
  | O => []
  | S n' => firstn 64 bs :: blocks n' (skipn 64 bs)
  end.

Definition sha256_hex (msg : bytes) : string :=
  let padded := msg ++ padding (Z.of_nat (length msg)) in
  hex_words8 (fold_left compress (blocks (length padded / 64) padded) H256_init).

End Hashlib.

(** ** Results of fallible calls *)

(** The exceptions the script can meet; none of them is caught. *)
Inductive exn : Type :=
| UnicodeDecodeError
| ValueError
| IndexError
| re_error.

(** [Unsupported] marks an input on which the embedding does not follow
    the libraries (a wildcard in a glob pattern, the pattern [..], a
    regular expression
    outside the fragment below, text beyond code point 255). *)
Inductive res (A : Type) : Type :=
| Ok (a : A)
| Raise (e : exn)
| Unsupported.

Arguments Ok {A} a.
Arguments Raise {A} e.
Arguments Unsupported {A}.

Definition bind {A B : Type} (m : res A) (f : A -> res B) : res B :=
  match m with
  | Ok a => f a
  | Raise e => Raise e
  | Unsupported => Unsupported
  end.

Notation "x <- m ;; k" := (bind m (fun x => k))
  (at level 61, m at next level, right associativity).

(** ** str *)

Module Str.

Definition LF : ascii := "010"%char.
Definition CR : ascii := "013"%char.

Definition ord (c : ascii) : Z := Z.of_N (N_of_ascii c).
Definition chr (n : Z) : ascii := ascii_of_N (Z.to_N n).

(** [c.isspace()] for a code point below 256. *)
Definition isspace (c : ascii) : bool :=
  let n := ord c in
  ((9 <=? n) && (n <=? 13)) || ((28 <=? n) && (n <=? 32))
  || (n =? 133) || (n =? 160).

(** [c.lower()] for a code point below 256: A-Z and the Latin-1 capitals
    (all of 192..222 but the multiplication sign) move up by 32. *)
Definition lower_char (c : ascii) : ascii :=
  let n := ord c in
  if ((65 <=? n) && (n <=? 90)) || ((192 <=? n) && (n <=? 214))
     || ((216 <=? n) && (n <=? 222))
  then chr (n + 32) else c.

Fixpoint lower (s : string) : string :=
  match s with
  | EmptyString => EmptyString
  | String c s' => String (lower_char c) (lower s')
  end.

Fixpoint contains (c : ascii) (s : string) : bool :=
  match s with
  | EmptyString => false
  | String d s' => Ascii.eqb c d || contains c s'
  end.

(** [s.lstrip(chars)] *)
Fixpoint lstrip (chars s : string) : string :=
  match s with
  | EmptyString => EmptyString
  | String c s' => if contains c chars then lstrip chars s' else s
  end.

Definition is_empty (s : string) : bool :=
  match s with EmptyString => true | String _ _ => false end.

Fixpoint lstrip_ws (s : string) : string :=
  match s with
  | EmptyString => EmptyString
  | String c s' => if isspace c then lstrip_ws s' else s
  end.

Fixpoint rstrip_ws (s : string) : string :=
  match s with
  | EmptyString => EmptyString
  | String c s' =>
      let r := rstrip_ws s' in
      if isspace c && is_empty r then EmptyString else String c r
  end.

(** [s.strip()] *)
Definition strip (s : string) : string := rstrip_ws (lstrip_ws s).

(** [s.split()]: the maximal runs of characters that are not white space. *)
Fixpoint split_ws (s : string) : list string :=
  match s with
  | EmptyString => []
  | String c s' =>
      if isspace c then split_ws s'
      else match s' with
           | EmptyString => [String c EmptyString]
           | String d _ =>
               if isspace d then String c EmptyString :: split_ws s'
               else match split_ws s' with
                    | w :: ws => String c w :: ws
                    | [] => [String c EmptyString]
                    end
           end
  end.

(** [s.split(sep)] for a separator of one character. *)
Fixpoint split (sep : ascii) (s : string) : list string :=
  match s with
  | EmptyString => [EmptyString]
  | String c s' =>
      if Ascii.eqb c sep then EmptyString :: split sep s'
      else match split sep s' with
           | w :: ws => String c w :: ws
           | [] => [String c EmptyString]
           end
  end.

(** [sep.join(l)] *)
Definition join (sep : string) (l : list string) : string := String.concat sep l.

(** [s.startswith(p)] *)
Definition startswith (s p : string) : bool := String.prefix p s.

(** [s.rfind(c)]: the last index of [c], or -1. *)
Fixpoint rfind (c : ascii) (s : string) : Z :=
  match s with
  | EmptyString => -1
  | String d s' =>
      let r := rfind c s' in
      if 0 <=? r then r + 1 else if Ascii.eqb d c then 0 else -1
  end.

Definition len (s : string) : Z := Z.of_nat (String.length s).

(** [s[i:j]] for [0 <= i] and [0 <= j]. *)
Definition slice (s : string) (i j : Z) : string :=
  String.substring (Z.to_nat i) (Z.to_nat (j - i)) s.

(** [l[0]] *)
Definition item0 {A : Type} (l : list A) : res A :=
  match l with
  | x :: _ => Ok x
  | [] => Raise IndexError
  end.

End Str.

(** ** pathlib: the parts of a file name *)

Module Pathlib.

(** [PurePath.suffix], from the name of the path. *)
Definition suffix (name : string) : string :=
  let i := Str.rfind "."%char name in
  if (0 <? i) && (i <? Str.len name - 1)
  then Str.slice name i (Str.len name) else EmptyString.

(** [PurePath.with_suffix(suffix)], on the name of the path. *)
Definition with_suffix (name sfx : string) : res string :=
  if Str.contains "/"%char sfx then Raise ValueError
  else if (negb (Str.is_empty sfx) && negb (Str.startswith sfx "."))
          || String.eqb sfx "."
  then Raise ValueError
  else if Str.is_empty name then Raise ValueError
  else
    let old_suffix := suffix name in
    if Str.is_empty old_suffix then Ok (name ++ sfx)%string
    else Ok (Str.slice name 0 (Str.len name - Str.len old_suffix) ++ sfx)%string.

(** A pattern that [Path.glob] looks up as one file name: it holds no
    wildcard and no separator. *)
Definition is_wildcard_pattern (pat : string) : bool :=
  Str.contains "*"%char pat || Str.contains "?"%char pat
  || Str.contains "["%char pat.

End Pathlib.

(** ** Reading text: UTF-8 and universal newlines *)

Module Codecs.
Import Hashlib.

(** Strict UTF-8 decoding of the sequences that encode a code point below
    256; a lead byte of a longer sequence is outside the embedding. *)
Fixpoint utf8_decode (bs : bytes) : res string :=
  match bs with
  | [] => Ok EmptyString
  | b :: rest =>
      let n := byte_val b in
      if n <? 128 then
        s <- utf8_decode rest ;; Ok (String (Str.chr n) s)
      else if n <? 194 then Raise UnicodeDecodeError
      else if n <? 196 then
        match rest with
        | b2 :: rest' =>
            let m := byte_val b2 in
            if (128 <=? m) && (m <? 192) then
              s <- utf8_decode rest' ;;
              Ok (String (Str.chr ((n - 194) * 64 + m)) s)
            else Raise UnicodeDecodeError
        | [] => Raise UnicodeDecodeError
        end
      else Unsupported
  end.

(** Text mode turns a carriage return, with the line feed after it if
    there is one, into one line feed. *)
Fixpoint universal_newlines (s : string) : string :=
  match s with
  | EmptyString => EmptyString
  | String c s' =>
      if Ascii.eqb c Str.CR then
        match s' with
        | String d s'' =>
            if Ascii.eqb d Str.LF then String Str.LF (universal_newlines s'')
            else String Str.LF (universal_newlines s')
        | EmptyString => String Str.LF EmptyString
        end
      else String c (universal_newlines s')
  end.

(** [Path.read_text()] of a file with content [bs]. *)
Definition read_text (bs : bytes) : res string :=
  s <- utf8_decode bs ;; Ok (universal_newlines s).

End Codecs.

(** ** re: the pattern of the release-notes search *)

Module Re.

Definition HEADING : string := "# Code Switch v".

(** One position of the pattern: a literal character, or [.] which under
    [re.DOTALL] matches any character. *)
Inductive atom : Type :=
| Lit (c : ascii)
| Dot.

Definition special (c : ascii) : bool := Str.contains c "\.^$*+?{}[]|()".

(** The version text read as a piece of a regular expression.  Ordinary
    characters stand for themselves; a closing parenthesis that nothing
    opened is an error; the other special characters are outside the
    fragment. *)
Fixpoint parse (v : string) : res (list atom) :=
  match v with
  | EmptyString => Ok []
  | String c v' =>
      if Ascii.eqb c "."%char then p <- parse v' ;; Ok (Dot :: p)
      else if Ascii.eqb c ")"%char then Raise re_error
      else if special c then Unsupported
      else p <- parse v' ;; Ok (Lit c :: p)
  end.

Definition literal (s : string) : list atom := map Lit (list_ascii_of_string s).

(** [rf"# Code Switch v{version_clean}"], the part of the pattern before
    [.*?]. *)
Definition compile (version_clean : string) : res (list atom) :=
  p <- parse version_clean ;; Ok (literal HEADING ++ p).

Definition match_atom (a : atom) (c : ascii) : bool :=
  match a with
  | Lit d => Ascii.eqb c d
  | Dot => true
  end.

(** The atoms matched at the start of [s]: the text they matched and the
    text after it. *)
Fixpoint match_atoms (p : list atom) (s : string) : option (string * string) :=
  match p with
  | [] => Some (EmptyString, s)
  | a :: p' =>
      match s with
      | EmptyString => None
      | String c s' =>
          if match_atom a c then
            match match_atoms p' s' with
            | Some (m, rest) => Some (String c m, rest)
            | None => None
            end
          else None
      end
  end.

(** [.*?(?=# Code Switch v|\Z)] at the start of [s]: the shortest text
    after which a heading starts or the subject ends. *)
Fixpoint lazy_body (s : string) : string :=
  match s with
  | EmptyString => EmptyString
  | String c s' =>
      if Str.startswith s HEADING then EmptyString else String c (lazy_body s')
  end.

(** [re.search(pattern, s, re.DOTALL).group(0)], or [None]: the match at
    the leftmost position where the atoms match. *)
Fixpoint search (p : list atom) (s : string) : option string :=
  match match_atoms p s with
  | Some (m, rest) => Some (m ++ lazy_body rest)%string
  | None =>
      match s with
      | EmptyString => None
      | String _ s' => search p s'
      end
  end.

End Re.

(** ** The files the script sees *)

Record file : Type := File { f_name : string; f_data : Hashlib.bytes }.

(** [listdir p] is [None] when the path [p] does not exist, and otherwise
    the regular files of the directory [p], in the order the directory
    lists them.  [release_notes_md] is the content of [./RELEASE_NOTES.md]
    when that file exists, and [utcnow] is
    [datetime.now(timezone.utc).isoformat()]. *)
Record world : Type := World {
  listdir : string -> option (list file);
  release_notes_md : option Hashlib.bytes;
  utcnow : string
}.

Definition lookup_file (name : string) (dir : list file) : option file :=
  find (fun f => String.eqb (f_name f) name) dir.

(** ** The manifest and what is printed *)

Record asset_record : Type := AssetRecord {
  url : string;
  sha256 : string;
  size : Z
}.

(** A [dict]: the keys in insertion order. *)
Definition dict (V : Type) : Type := list (string * V).

Fixpoint dict_set {V : Type} (d : dict V) (k : string) (v : V) : dict V :=
  match d with
  | [] => [(k, v)]
  | (k', v') :: d' =>
      if String.eqb k k' then (k, v) :: d' else (k', v') :: dict_set d' k v
  end.

Fixpoint dict_get {V : Type} (d : dict V) (k : string) : option V :=
  match d with
  | [] => None
  | (k', v') :: d' => if String.eqb k k' then Some v' else dict_get d' k
  end.

Record manifest : Type := Manifest {
  version : string;
  pub_date : string;
  notes : string;
  platforms : dict asset_record
}.

(** One constructor for each [print] of the script, with the values its
    format string shows. *)
Inductive message : Type :=
| usage_line (text : string)
| error_assets_dir_not_found (assets_dir : string)
| warning_sha256_mismatch (asset_name : string)
| computed_line (computed : string)
| from_file_line (file_sha256 : string)
| found (platform_key asset_name : string) (bytes : Z)
| warning_no_asset (platform_key : string)
| generated (output_file : string)
| manifest_dump (m : manifest).

(** How the process ends: [sys.exit] or the end of [main], with what was
    printed and the file that was written; or an exception nobody caught
    (a traceback and exit status 1, before anything is written). *)
Inductive outcome : Type :=
| Exited (status : Z) (stdout : list message) (written : option (string * manifest))
| Crashed (e : exn)
| OutOfModel.

Definition exit_status (o : outcome) : option Z :=
  match o with
  | Exited status _ _ => Some status
  | Crashed _ => Some 1
  | OutOfModel => None
  end.

Definition output_written (o : outcome) : option (string * manifest) :=
  match o with
  | Exited _ _ written => written
  | _ => None
  end.

(** ** compute_sha256 *)

(** [f.read(n)] on the bytes not yet read: the block and what is left. *)
Definition f_read (n : nat) (unread : Hashlib.bytes) : Hashlib.bytes * Hashlib.bytes :=
  (firstn n unread, skipn n unread).

Definition inspect {A : Type} (a : A) : {b : A | a = b} := exist _ a eq_refl.

(** The size of a block: [f.read(4096)]. *)
Definition CHUNK : nat := 4096.

Local Opaque CHUNK.

(** [for byte_block in iter(lambda: f.read(4096), b""): update(byte_block)] *)
Equations? read_blocks (h : Hashlib.hasher) (unread : Hashlib.bytes) : Hashlib.hasher
  by wf (length unread) lt :=
read_blocks h unread with inspect (f_read CHUNK unread) := {
  | exist _ ([], _) _ => h
  | exist _ (b :: block, rest) E => read_blocks (Hashlib.update h (b :: block)) rest
}.
Proof.
  assert (HC : CHUNK = 4096%nat) by reflexivity.
  rewrite length_skipn.
  destruct unread as [|x l]; [rewrite firstn_nil in *; discriminate |].
  cbn [length]. lia.
Qed.

Local Transparent CHUNK.

Definition compute_sha256 (filepath : file) : string :=
  Hashlib.hexdigest (read_blocks Hashlib.sha256_new (f_data filepath)).

(** ** get_file_size *)

Definition get_file_size (filepath : file) : Z :=
  Z.of_nat (length (f_data filepath)).

(** ** find_asset *)

(** [list(assets_dir.glob(pattern))].  [Path.glob] refuses the empty
    pattern with [ValueError]; a pattern without wildcard and separator
    is looked up as one name, but [.] leaves no name to look up
    ([IndexError]) and [..] gives the parent directory, which is no file
    of the directory. *)
Definition glob (assets_dir : list file) (pattern : string) : res (list file) :=
  if Str.is_empty pattern then Raise ValueError
  else if Pathlib.is_wildcard_pattern pattern || Str.contains "/"%char pattern
  then Unsupported
  else if String.eqb pattern "." then Raise IndexError
  else if String.eqb pattern ".." then Unsupported
  else Ok (match lookup_file pattern assets_dir with
           | Some f => [f]
           | None => []
           end).

Fixpoint find_asset (assets_dir : list file) (patterns : list string) : res (option file) :=
  match patterns with
  | [] => Ok None
  | pattern :: patterns' =>
      matches <- glob assets_dir pattern ;;
      match matches with
      | m :: _ => Ok (Some m)
      | [] => find_asset assets_dir patterns'
      end
  end.

(** ** main *)

Record config : Type := Config { patterns : list string; filename : string }.

Definition platform_configs (version_clean : string) : dict config :=
  let v := ("CodeSwitch-v" ++ version_clean)%string in
  [ ("windows-x86_64"%string,
     Config [(v ++ ".exe")%string; "CodeSwitch.exe"%string] (v ++ ".exe")%string);
    ("windows-x86_64-installer"%string,
     Config [(v ++ "-amd64-installer.exe")%string;
             "CodeSwitch-amd64-installer.exe"%string]
            (v ++ "-amd64-installer.exe")%string);
    ("darwin-aarch64"%string,
     Config [(v ++ "-macos-arm64.zip")%string; "codeswitch-macos-arm64.zip"%string]
            (v ++ "-macos-arm64.zip")%string);
    ("darwin-x86_64"%string,
     Config [(v ++ "-macos-amd64.zip")%string; "codeswitch-macos-amd64.zip"%string]
            (v ++ "-macos-amd64.zip")%string);
    ("linux-x86_64"%string,
     Config [(v ++ ".AppImage")%string; "CodeSwitch.AppImage"%string]
            (v ++ ".AppImage")%string) ].

(** What the loop over the platforms has built so far. *)
Record state : Type := State { st_platforms : dict asset_record; st_stdout : list message }.

Definition print (m : message) (st : state) : state :=
  State (st_platforms st) (st_stdout st ++ [m]).

Definition set_platform (k : string) (r : asset_record) (st : state) : state :=
  State (dict_set (st_platforms st) k r) (st_stdout st).

(** The name of the checksum file next to an asset:
    [asset_file.with_suffix(asset_file.suffix + ".sha256")]. *)
Definition sha256_file_name (asset_name : string) : res string :=
  Pathlib.with_suffix asset_name (Pathlib.suffix asset_name ++ ".sha256")%string.

(** Lines 96-105: the comparison with the checksum file, when it exists. *)
Definition check_sha256_file (assets_dir : list file) (asset_file : file)
    (computed : string) (st : state) : res state :=
  sha256_file <- sha256_file_name (f_name asset_file) ;;
  match lookup_file sha256_file assets_dir with
  | Some sf =>
      text <- Codecs.read_text (f_data sf) ;;
      let content := Str.strip text in
      if negb (Str.is_empty content) then
        file_sha256 <- Str.item0 (Str.split_ws content) ;;
        if negb (String.eqb (Str.lower file_sha256) (Str.lower computed)) then
          Ok (print (from_file_line file_sha256)
                (print (computed_line computed)
                   (print (warning_sha256_mismatch (f_name asset_file)) st)))
        else Ok st
      else Ok st
  | None => Ok st
  end.

(** The body of the loop over [platform_configs.items()]. *)
Definition scan_platform (assets_dir : list file) (base_url : string)
    (st : state) (item : string * config) : res state :=
  let '(platform_key, cfg) := item in
  asset <- find_asset assets_dir (patterns cfg) ;;
  match asset with
  | Some asset_file =>
      let computed := compute_sha256 asset_file in
      let bytes := get_file_size asset_file in
      st1 <- check_sha256_file assets_dir asset_file computed st ;;
      let st2 :=
        set_platform platform_key
          (AssetRecord (base_url ++ "/" ++ filename cfg)%string computed bytes) st1 in
      Ok (print (found platform_key (f_name asset_file) bytes) st2)
  | None => Ok (print (warning_no_asset platform_key) st)
  end.

Fixpoint scan_platforms (assets_dir : list file) (base_url : string)
    (st : state) (items : dict config) : res state :=
  match items with
  | [] => Ok st
  | item :: items' =>
      st' <- scan_platform assets_dir base_url st item ;;
      scan_platforms assets_dir base_url st' items'
  end.

(** Lines 117-130: the notes of the current version. *)
Definition extract_notes (w : world) (version_clean : string) : res string :=
  match release_notes_md w with
  | Some data =>
      content <- Codecs.read_text data ;;
      pattern <- Re.compile version_clean ;;
      match Re.search pattern content with
      | Some group0 =>
          let notes := Str.strip group0 in
          match Str.split Str.LF notes with
          | line0 :: lines' =>
              if Str.startswith line0 "# "
              then Ok (Str.strip (Str.join (String Str.LF EmptyString) lines'))
              else Ok notes
          | [] => Ok notes
          end
      | None => Ok EmptyString
      end
  | None => Ok EmptyString
  end.

Definition usage : list message :=
  [ usage_line "Usage: generate-latest-json.py <version> <assets_dir> [output_file]";
    usage_line "  version: Version string (e.g., v2.6.23)";
    usage_line "  assets_dir: Directory containing release assets";
    usage_line "  output_file: Output file path (default: latest.json)" ].

(** [base_url], the prefix of every download URL. *)
Definition base_url (version_clean : string) : string :=
  ("https://github.com/Rogers-F/code-switch-R/releases/download/v"
   ++ version_clean)%string.

Definition main (w : world) (argv : list string) : outcome :=
  match argv with
  | _ :: version_arg :: assets_dir :: rest =>
      let output_file :=
        match rest with o :: _ => o | [] => "latest.json"%string end in
      match listdir w assets_dir with
      | None => Exited 1 [error_assets_dir_not_found assets_dir] None
      | Some entries =>
          let version_clean := Str.lstrip "v" version_arg in
          match scan_platforms entries (base_url version_clean) (State [] [])
                  (platform_configs version_clean) with
          | Ok st =>
              match extract_notes w version_clean with
              | Ok notes_text =>
                  let m := Manifest ("v" ++ version_clean)%string (utcnow w)
                             notes_text (st_platforms st) in
                  Exited 0 (st_stdout st ++ [generated output_file; manifest_dump m])
                    (Some (output_file, m))
              | Raise e => Crashed e
              | Unsupported => OutOfModel
              end
          | Raise e => Crashed e
          | Unsupported => OutOfModel
          end
      end
  | _ => Exited 1 usage None
  end.

(** ** Notions used to state the properties *)

(** A character of a lowercase hexadecimal digest. *)
Definition is_lower_hex_char (c : ascii) : bool :=
  let n := Str.ord c in
  ((48 <=? n) && (n <=? 57)) || ((97 <=? n) && (n <=? 102)).

Fixpoint lower_hex (s : string) : bool :=
  match s with
  | EmptyString => true
  | String c s' => is_lower_hex_char c && lower_hex s'
  end.

(** Two characters that are the same, or the capital and the small form
    of one letter A-Z. *)
Definition same_letter (c d : ascii) : bool :=
  let n := Str.ord c in
  let m := Str.ord d in
  Ascii.eqb c d
  || ((65 <=? n) && (n <=? 90) && (m =? n + 32))
  || ((65 <=? m) && (m <=? 90) && (n =? m + 32)).

(** Two strings that differ at most in the case of their letters. *)
Fixpoint differs_only_in_case (a b : string) : bool :=
  match a, b with
  | EmptyString, EmptyString => true
  | String c a', String d b' => same_letter c d && differs_only_in_case a' b'
  | _, _ => false
  end.

(** [needle in hay] *)
Fixpoint occurs (needle hay : string) : bool :=
  String.prefix needle hay
  || match hay with
     | EmptyString => false
     | String _ hay' => occurs needle hay'
     end.

(** What the loop prints for one platform, and the record it stores for
    it, read off a run of the loop body that starts from nothing. *)
Definition platform_messages (assets_dir : list file) (base : string)
    (item : string * config) : list message :=
  match scan_platform assets_dir base (State [] []) item with
  | Ok st => st_stdout st
  | _ => []
  end.

Definition platform_record (assets_dir : list file) (base : string)
    (item : string * config) : option asset_record :=
  match scan_platform assets_dir base (State [] []) item with
  | Ok st => dict_get (st_platforms st) (fst item)
  | _ => None
  end.

(** Every file of the directory whose name ends in [.sha256] holds text
    that [read_text] decodes. *)
Definition checksum_files_are_text (assets_dir : list file) : Prop :=
  forall sf x, In sf assets_dir -> f_name sf = (x ++ ".sha256")%string ->
    exists text, Codecs.read_text (f_data sf) = Ok text.

(** The directory without the file called [name]. *)
Definition without_file (name : string) (assets_dir : list file) : list file :=
  filter (fun f => negb (String.eqb (f_name f) name)) assets_dir.

(** Text without a glob wildcard and without a path separator. *)
Definition glob_plain (s : string) : bool :=
  negb (Pathlib.is_wildcard_pattern s || Str.contains "/" s).

(** A pattern that [glob] looks up as the name of one file: plain text
    that is not empty and is neither [.] nor [..]. *)
Definition file_name_pattern (p : string) : bool :=
  glob_plain p && negb (Str.is_empty p)
  && negb (String.eqb p ".") && negb (String.eqb p "..").

(** The last character of [s], or [d] when [s] is empty. *)
Fixpoint last_char (s : string) (d : ascii) : ascii :=
  match s with
  | EmptyString => d
  | String c s' => last_char s' c
  end.

(** ** Inputs of the examples *)

Module Examples.

Definition NL : string := String Str.LF EmptyString.

Definition bytes_of_string (s : string) : Hashlib.bytes := list_byte_of_string s.

Definition appimage : file :=
  File "CodeSwitch-v2.6.23.AppImage" (bytes_of_string "abc").

(** The SHA-256 digest of the three bytes [abc]. *)
Definition abc_digest : string :=
  "ba7816bf8f01cfea414140de5dae2223b00361a396177a9cb410ff61f20015ad".

Definition checksum_file (text : string) : file :=
  File "CodeSwitch-v2.6.23.AppImage.sha256" (bytes_of_string text).

Definition release_notes : string :=
  ("# Code Switch v2.6.23" ++ NL ++ "Foo" ++ NL
   ++ "# Code Switch v2.6.22" ++ NL ++ "Bar")%string.

(** A world whose assets directory is [release-assets]. *)
Definition world_of (dir : list file) (release_notes_text : option string) : world :=
  World (fun p => if String.eqb p "release-assets" then Some dir else None)
    (option_map bytes_of_string release_notes_text)
    "2025-01-01T00:00:00+00:00".

Definition argv_of (version_arg : string) : list string :=
  ["generate-latest-json.py"%string; version_arg; "release-assets"%string].

Definition appimage_record : asset_record :=
  AssetRecord
    "https://github.com/Rogers-F/code-switch-R/releases/download/v2.6.23/CodeSwitch-v2.6.23.AppImage"
    abc_digest 3.

End Examples.

(** ** The outcome of a run that completes *)

(** The output file of a run: the third argument, or [latest.json]. *)
Definition output_file_of (rest : list string) : string :=
  nth 0 rest "latest.json"%string.

(** The run that scans the directory [dir] for the version [vc], finds the
    notes [notes_text], stores the records [plats] and ends with status 0:
    it prints the messages of the platforms in turn, then the manifest,
    which it has written to the output file. *)
Definition completed_run (w : world) (vc : string) (dir : list file)
    (output_file notes_text : string) (plats : dict asset_record) : outcome :=
  let m := Manifest ("v" ++ vc) (utcnow w) notes_text plats in
  Exited 0
    (concat (map (platform_messages dir (base_url vc)) (platform_configs vc))
     ++ [generated output_file; manifest_dump m])
    (Some (output_file, m)).

(** A record as the manifest wants it: a download URL, a digest of 64
    lowercase hexadecimal characters, a size that is not negative. *)
Definition well_formed_record (r : asset_record) : Prop :=
  Str.startswith (url r)
    "https://github.com/Rogers-F/code-switch-R/releases/download/v" = true
  /\ String.length (sha256 r) = 64%nat
  /\ lower_hex (sha256 r) = true
  /\ 0 <= size r.

(** ** Notions used to state further properties *)

(** [hay.find(needle)]: the first index at which [needle] starts, or
    [None] where Python gives -1. *)
Fixpoint find_index (needle hay : string) : option nat :=
  if String.prefix needle hay then Some 0%nat
  else match hay with
       | EmptyString => None
       | String _ hay' => option_map S (find_index needle hay')
       end.

(** A version made of dots and of characters that stand for themselves
    in a regular expression. *)
Definition dotted_version (v : string) : bool :=
  forallb (fun c => Ascii.eqb c "." || negb (Re.special c)) (list_ascii_of_string v).


Definition is_found (m : message) : bool :=
  match m with found _ _ _ => true | _ => false end.

Definition is_warning_no_asset (m : message) : bool :=
  match m with warning_no_asset _ => true | _ => false end.

(** No file of the directory whose name ends in [.sha256] holds text
    beyond code point 255. *)
Definition checksum_files_in_range (assets_dir : list file) : Prop :=
  forall sf x, In sf assets_dir -> f_name sf = (x ++ ".sha256")%string ->
    Codecs.read_text (f_data sf) <> Unsupported.

(** The arguments of a run: [sys.argv[1].lstrip("v")], [sys.argv[2]] and
    the path of the output file. *)
Definition version_clean_of (argv : list string) : string :=
  Str.lstrip "v" (nth 1 argv EmptyString).

Definition assets_dir_of (argv : list string) : string := nth 2 argv EmptyString.

Definition output_of (argv : list string) : string := output_file_of (skipn 3 argv).

(** The records the loop stores for the rows [items] of the platform
    table, in the order of the rows. *)
Definition records (assets_dir : list file) (base : string) (items : dict config)
    : dict asset_record :=
  flat_map (fun item => match platform_record assets_dir base item with
                        | Some rec => [(fst item, rec)]
                        | None => []
                        end) items.

(** The text after the first line of [s]: what follows its first line
    feed, or nothing. *)
Fixpoint after_first_line (s : string) : string :=
  match s with
  | EmptyString => EmptyString
  | String c s' => if Ascii.eqb c Str.LF then s' else after_first_line s'
  end.

(** ** Further inputs of the examples *)

Module MoreExamples.


(** A checksum file that is not UTF-8: the single byte 0x80. *)
Definition broken_checksum_file : file :=
  File "CodeSwitch-v2.6.23.AppImage.sha256" [Byte.x80].

Definition linux_row : string * config :=
  ("linux-x86_64"%string,
   Config ["CodeSwitch-v2.6.23.AppImage"%string; "CodeSwitch.AppImage"%string]
     "CodeSwitch-v2.6.23.AppImage").



End MoreExamples.

(** *** Incremental hashing agrees with hashing in one pass *)

Module HashlibFacts.
Import Hashlib.

Lemma absorb_blocks_plus (n m : nat) (h : words8) (bs : bytes) :
  absorb_blocks (n + m) h bs =
  absorb_blocks m (fst (absorb_blocks n h bs)) (snd (absorb_blocks n h bs)).
Proof.
  revert h bs. induction n as [|n IH]; intros h bs; cbn [absorb_blocks fst snd].
  - reflexivity.
  - apply IH.
Qed.

Lemma absorb_blocks_app (n : nat) (h : words8) (xs ys : bytes) :
  (64 * n <= length xs)%nat ->
  absorb_blocks n h (xs ++ ys) =
  (fst (absorb_blocks n h xs), snd (absorb_blocks n h xs) ++ ys).
Proof.
  revert h xs. induction n as [|n IH]; intros h xs Hlen; cbn [absorb_blocks fst snd].
  - reflexivity.
  - rewrite firstn_app, skipn_app.
    replace (64 - length xs)%nat with 0%nat by lia.
    rewrite firstn_O, skipn_O, app_nil_r.
    apply IH. rewrite length_skipn. lia.
Qed.

Lemma absorb_blocks_length (n : nat) (h : words8) (bs : bytes) :
  length (snd (absorb_blocks n h bs)) = (length bs - 64 * n)%nat.
Proof.
  revert h bs. induction n as [|n IH]; intros h bs; cbn [absorb_blocks fst snd].
  - lia.
  - rewrite IH, length_skipn. lia.
Qed.

Lemma absorb_rest_length (h : words8) (bs : bytes) :
  length (snd (absorb h bs)) = (length bs mod 64)%nat.
Proof.
  unfold absorb. rewrite absorb_blocks_length.
  pose proof (Nat.div_mod_eq (length bs) 64). lia.
Qed.

(** Absorbing a concatenation is absorbing the first part and then the
    rest, carrying over the bytes that did not fill a block. *)
Lemma absorb_app (h : words8) (xs ys : bytes) :
  absorb h (xs ++ ys) =
  absorb (fst (absorb h xs)) (snd (absorb h xs) ++ ys).
Proof.
  unfold absorb at 1. rewrite length_app.
  set (n := (length xs / 64)%nat).
  assert (Hdiv : ((length xs + length ys) / 64
                  = n + (length xs mod 64 + length ys) / 64)%nat).
  { pose proof (Nat.div_mod_eq (length xs) 64) as E. fold n in E.
    rewrite E at 1.
    replace (64 * n + length xs mod 64 + length ys)%nat
      with ((length xs mod 64 + length ys) + n * 64)%nat by lia.
    rewrite Nat.div_add by lia. lia. }
  rewrite Hdiv, absorb_blocks_plus.
  assert (Hle : (64 * n <= length xs)%nat).
  { unfold n. pose proof (Nat.div_mod_eq (length xs) 64). lia. }
  rewrite (absorb_blocks_app n h xs ys Hle). simpl fst. simpl snd.
  unfold absorb at 1. fold n.
  rewrite length_app. fold n.
  change (absorb_blocks n h xs) with (absorb h xs).
  rewrite absorb_rest_length. reflexivity.
Qed.

Lemma absorb_short (h : words8) (bs : bytes) :
  (length bs < 64)%nat -> absorb h bs = (h, bs).
Proof.
  intros Hlt. unfold absorb. rewrite Nat.div_small by exact Hlt. reflexivity.
Qed.

(** [m.update(a); m.update(b)] is [m.update(a + b)]. *)
Lemma update_app (h : hasher) (xs ys : bytes) :
  update (update h xs) ys = update h (xs ++ ys).
Proof.
  unfold update.
  rewrite app_assoc, (absorb_app (chain h) (pending h ++ xs) ys).
  destruct (absorb (chain h) (pending h ++ xs)) as [c r].
  cbn [chain pending fed fst snd].
  destruct (absorb c (r ++ ys)) as [c' r'].
  rewrite length_app, Nat2Z.inj_add, Z.add_assoc. reflexivity.
Qed.

Lemma update_nil (h : hasher) :
  (length (pending h) < 64)%nat -> update h [] = h.
Proof.
  intros Hlt. unfold update. rewrite app_nil_r, absorb_short by exact Hlt.
  destruct h; simpl. rewrite Z.add_0_r. reflexivity.
Qed.

Lemma update_pending_short (h : hasher) (data : bytes) :
  (length (pending (update h data)) < 64)%nat.
Proof.
  unfold update.
  pose proof (absorb_rest_length (chain h) (pending h ++ data)) as E.
  destruct (absorb (chain h) (pending h ++ data)) as [c r].
  cbn [snd pending] in *.
  rewrite E. apply Nat.mod_upper_bound. lia.
Qed.

Lemma absorb_blocks_fold (n : nat) (h : words8) (bs : bytes) :
  fst (absorb_blocks n h bs) = fold_left compress (blocks n bs) h.
Proof.
  revert h bs. induction n as [|n IH]; intros h bs; cbn [absorb_blocks blocks fold_left fst].
  - reflexivity.
  - apply IH.
Qed.

(** The digest of a fresh hasher fed [msg] in one call is the reference
    digest of [msg]. *)
Lemma hexdigest_update_new (msg : bytes) :
  hexdigest (update sha256_new msg) = sha256_hex msg.
Proof.
  unfold hexdigest, sha256_hex, update, sha256_new.
  cbn [chain pending fed app]. rewrite Z.add_0_l.
  pose proof (absorb_app H256_init msg (padding (Z.of_nat (length msg)))) as E.
  destruct (absorb H256_init msg) as [c r].
  cbn [chain pending fed fst snd] in *.
  rewrite <- E. unfold absorb. rewrite absorb_blocks_fold. reflexivity.
Qed.

End HashlibFacts.

(** *** compute_sha256 *)

Lemma firstn_CHUNK_nil (unread : Hashlib.bytes) :
  firstn CHUNK unread = [] -> unread = [].
Proof.
  destruct unread as [|x l]; [reflexivity |].
  change CHUNK with (S 4095). cbn [firstn]. discriminate.
Qed.

(** Reading block after block feeds the hasher the whole content. *)
Lemma read_blocks_update (h : Hashlib.hasher) (unread : Hashlib.bytes) :
  (length (Hashlib.pending h) < 64)%nat ->
  read_blocks h unread = Hashlib.update h unread.
Proof.
  funelim (read_blocks h unread); intros Hp.
  - match goal with E : firstn CHUNK _ = [] |- _ =>
      apply firstn_CHUNK_nil in E; subst unread end.
    symmetry. apply HashlibFacts.update_nil. exact Hp.
  - rewrite H by apply HashlibFacts.update_pending_short.
    rewrite HashlibFacts.update_app.
    match goal with E : firstn CHUNK _ = _ |- _ => rewrite <- E end.
    rewrite firstn_skipn. reflexivity.
Qed.

(** The digests of the empty message and of [abc], as FIPS 180-4 and
    [hashlib] give them. *)
Example sha256_hex_empty :
  Hashlib.sha256_hex []
  = "e3b0c44298fc1c149afbf4c8996fb92427ae41e4649b934ca495991b7852b855"%string.
Proof. vm_compute. reflexivity. Qed.

Example sha256_hex_abc :
  Hashlib.sha256_hex (Examples.bytes_of_string "abc") = Examples.abc_digest.
Proof. vm_compute. reflexivity. Qed.

Lemma compute_sha256_one_pass (f : file) :
  compute_sha256 f = Hashlib.sha256_hex (f_data f).
Proof.
  unfold compute_sha256.
  rewrite read_blocks_update by (cbn; lia).
  apply HashlibFacts.hexdigest_update_new.
Qed.

(** *** The shape of a digest *)

Lemma land_15_range (x : Z) : 0 <= Z.land x 15 <= 15.
Proof.
  assert (E : Z.land x 15 = x mod 16).
  { change 15 with (Z.ones 4). rewrite Z.land_ones by (cbv; discriminate).
    reflexivity. }
  rewrite E. pose proof (Z.mod_pos_bound x 16). lia.
Qed.

Lemma hex_digit_lower (n : Z) :
  0 <= n <= 15 -> is_lower_hex_char (Hashlib.hex_digit n) = true.
Proof.
  intros Hn.
  assert (Hall : forallb (fun k => is_lower_hex_char (Hashlib.hex_digit (Z.of_nat k)))
                   (seq 0 16) = true) by reflexivity.
  rewrite forallb_forall in Hall.
  rewrite <- (Z2Nat.id n) by lia. apply Hall. apply in_seq. lia.
Qed.

Lemma hex_word_length (w : Z) : length (Hashlib.hex_word w) = 8%nat.
Proof. reflexivity. Qed.

Lemma hex_word_lower (w : Z) :
  forallb is_lower_hex_char (Hashlib.hex_word w) = true.
Proof.
  unfold Hashlib.hex_word. rewrite forallb_forall. intros c Hc.
  apply in_map_iff in Hc. destruct Hc as [i [<- _]].
  apply hex_digit_lower, land_15_range.
Qed.

Lemma lower_hex_of_list (l : list ascii) :
  lower_hex (string_of_list_ascii l) = forallb is_lower_hex_char l.
Proof.
  induction l as [|c l IH]; [reflexivity |].
  cbn [string_of_list_ascii lower_hex forallb]. rewrite IH. reflexivity.
Qed.

Lemma length_string_of_list (l : list ascii) :
  String.length (string_of_list_ascii l) = length l.
Proof.
  induction l as [|c l IH]; [reflexivity |].
  cbn [string_of_list_ascii String.length length]. rewrite IH. reflexivity.
Qed.

Lemma hex_words8_shape (s : Hashlib.words8) :
  String.length (Hashlib.hex_words8 s) = 64%nat
  /\ lower_hex (Hashlib.hex_words8 s) = true.
Proof.
  unfold Hashlib.hex_words8. split.
  - rewrite length_string_of_list. repeat rewrite length_app.
    repeat rewrite hex_word_length. reflexivity.
  - rewrite lower_hex_of_list. repeat rewrite forallb_app.
    repeat rewrite hex_word_lower. reflexivity.
Qed.

Lemma sha256_hex_shape (msg : Hashlib.bytes) :
  String.length (Hashlib.sha256_hex msg) = 64%nat
  /\ lower_hex (Hashlib.sha256_hex msg) = true.
Proof. unfold Hashlib.sha256_hex. apply hex_words8_shape. Qed.

(** *** Facts about strings *)

Module StrFacts.

Lemma append_assoc (a b c : string) :
  ((a ++ b) ++ c)%string = (a ++ (b ++ c))%string.
Proof.
  induction a as [|x a IH]; [reflexivity |].
  cbn [append]. rewrite IH. reflexivity.
Qed.

Lemma append_nil_r (a : string) : (a ++ "")%string = a.
Proof.
  induction a as [|x a IH]; [reflexivity |].
  cbn [append]. rewrite IH. reflexivity.
Qed.

Lemma length_append (a b : string) :
  String.length (a ++ b) = (String.length a + String.length b)%nat.
Proof.
  induction a as [|x a IH]; [reflexivity |].
  cbn [append String.length]. rewrite IH. reflexivity.
Qed.

Lemma append_cancel_l (a b c : string) :
  (a ++ b)%string = (a ++ c)%string -> b = c.
Proof.
  induction a as [|x a IH]; cbn [append]; intros H; [exact H |].
  injection H as H. exact (IH H).
Qed.

Lemma contains_append (c : ascii) (a b : string) :
  Str.contains c (a ++ b) = Str.contains c a || Str.contains c b.
Proof.
  induction a as [|x a IH]; [reflexivity |].
  cbn [append Str.contains]. rewrite IH, Bool.orb_assoc. reflexivity.
Qed.

Lemma prefix_append (p x : string) : String.prefix p (p ++ x) = true.
Proof.
  induction p as [|c p IH]; [destruct x; reflexivity |].
  cbn [append String.prefix].
  destruct (ascii_dec c c) as [_ | N]; [exact IH | contradiction].
Qed.

Lemma chr_ord (c : ascii) : Str.chr (Str.ord c) = c.
Proof.
  unfold Str.chr, Str.ord. rewrite N2Z.id. apply ascii_N_embedding.
Qed.

Lemma ord_range (c : ascii) : 0 <= Str.ord c < 256.
Proof.
  unfold Str.ord. pose proof (N_ascii_bounded c). lia.
Qed.

Lemma ord_chr (n : Z) : 0 <= n < 256 -> Str.ord (Str.chr n) = n.
Proof.
  intros Hn. unfold Str.chr, Str.ord.
  rewrite N_ascii_embedding by lia. lia.
Qed.

Lemma ord_inj (c d : ascii) : Str.ord c = Str.ord d -> c = d.
Proof.
  intros H. rewrite <- (chr_ord c), <- (chr_ord d), H. reflexivity.
Qed.

End StrFacts.

(** Case analysis on the integer comparisons of a goal. *)
Ltac zcases :=
  repeat match goal with
         | |- context [(?x =? ?y)%Z] => destruct (Z.eqb_spec x y)
         | |- context [(?x <=? ?y)%Z] => destruct (Z.leb_spec x y)
         | |- context [(?x <? ?y)%Z] => destruct (Z.ltb_spec x y)
         end;
  cbn [andb orb negb].

Module CaseFacts.
Import StrFacts.

Lemma lower_char_capital (c : ascii) :
  65 <= Str.ord c <= 90 -> Str.lower_char c = Str.chr (Str.ord c + 32).
Proof.
  intros H. unfold Str.lower_char. zcases; first [reflexivity | lia].
Qed.

Lemma lower_char_small (c : ascii) :
  97 <= Str.ord c <= 122 -> Str.lower_char c = c.
Proof.
  intros H. unfold Str.lower_char. zcases; first [reflexivity | lia].
Qed.

Lemma same_letter_lower (c d : ascii) :
  same_letter c d = true -> Str.lower_char c = Str.lower_char d.
Proof.
  unfold same_letter. intros H.
  destruct (Ascii.eqb_spec c d) as [-> | _]; [reflexivity |].
  cbn [orb] in H.
  assert (Hcd : (65 <= Str.ord c <= 90 /\ Str.ord d = Str.ord c + 32)
                \/ (65 <= Str.ord d <= 90 /\ Str.ord c = Str.ord d + 32)).
  { apply Bool.orb_true_iff in H. destruct H as [H | H];
      repeat (apply Bool.andb_true_iff in H; destruct H as [H ?]);
      [left | right]; lia. }
  destruct Hcd as [[Hr He] | [Hr He]].
  - rewrite (lower_char_capital c Hr), (lower_char_small d) by lia.
    rewrite <- He. apply chr_ord.
  - rewrite (lower_char_capital d Hr), (lower_char_small c) by lia.
    rewrite <- He. symmetry. apply chr_ord.
Qed.

Lemma differs_only_in_case_lower (a b : string) :
  differs_only_in_case a b = true -> Str.lower a = Str.lower b.
Proof.
  revert b. induction a as [|c a IH]; intros [|d b] H;
    try discriminate; [reflexivity |].
  cbn [differs_only_in_case] in H.
  apply Bool.andb_true_iff in H. destruct H as [Hc Hab].
  cbn [Str.lower]. rewrite (same_letter_lower c d Hc), (IH b Hab).
  reflexivity.
Qed.

End CaseFacts.

Module StripFacts.

(** Text of which [split()] finds no word is white space only. *)
Lemma split_ws_nil (s : string) :
  Str.split_ws s = [] -> Str.lstrip_ws s = EmptyString.
Proof.
  induction s as [|c s IH]; [reflexivity |].
  cbn [Str.split_ws Str.lstrip_ws].
  destruct (Str.isspace c); [exact IH |].
  destruct s as [|d s]; [discriminate |].
  destruct (Str.isspace d); [discriminate |].
  destruct (Str.split_ws (String d s)); discriminate.
Qed.

(** What [rstrip] leaves is empty or does not end in white space. *)
Lemma rstrip_ws_all_space (x : string) :
  Str.lstrip_ws (Str.rstrip_ws x) = EmptyString ->
  Str.rstrip_ws x = EmptyString.
Proof.
  induction x as [|c x IH]; [reflexivity |].
  cbn [Str.rstrip_ws].
  destruct (Str.isspace c) eqn:Ec; cbn [andb].
  - destruct (Str.is_empty (Str.rstrip_ws x)) eqn:Er; [reflexivity |].
    cbn [Str.lstrip_ws]. rewrite Ec. intros H.
    rewrite (IH H) in Er. discriminate.
  - cbn [Str.lstrip_ws]. rewrite Ec. discriminate.
Qed.

(** A stripped text that is not empty has a first word. *)
Lemma strip_split_ws (t : string) :
  Str.is_empty (Str.strip t) = false ->
  exists tok toks, Str.split_ws (Str.strip t) = tok :: toks.
Proof.
  intros H. destruct (Str.split_ws (Str.strip t)) as [|tok toks] eqn:E.
  - apply split_ws_nil in E. unfold Str.strip in *.
    apply rstrip_ws_all_space in E. rewrite E in H. discriminate.
  - exists tok, toks. reflexivity.
Qed.

Lemma lstrip_v_no_leading_v (s : string) :
  Str.startswith (Str.lstrip "v" s) "v" = false.
Proof.
  unfold Str.startswith.
  induction s as [|c s IH]; [reflexivity |].
  cbn [Str.lstrip Str.contains].
  destruct (Ascii.eqb_spec c "v"%char) as [-> | N]; cbn [orb]; [exact IH |].
  cbn [String.prefix].
  destruct (ascii_dec "v" c) as [<- | _]; [contradiction | reflexivity].
Qed.

Lemma lstrip_v_leading_v (s : string) :
  Str.lstrip "v" (String "v" s) = Str.lstrip "v" s.
Proof. reflexivity. Qed.

Lemma lstrip_v_idempotent (s : string) :
  Str.lstrip "v" (Str.lstrip "v" s) = Str.lstrip "v" s.
Proof.
  induction s as [|c s IH]; [reflexivity |].
  cbn [Str.lstrip]. destruct (Str.contains c "v") eqn:E; [exact IH |].
  cbn [Str.lstrip]. rewrite E. reflexivity.
Qed.

End StripFacts.

Module PathFacts.
Import StrFacts.

Lemma rfind_range (c : ascii) (s : string) :
  -1 <= Str.rfind c s < Str.len s.
Proof.
  unfold Str.len. induction s as [|d s IH]; [cbn; lia |].
  cbn [Str.rfind String.length].
  destruct (Z.leb_spec 0 (Str.rfind c s)); [lia |].
  destruct (Ascii.eqb d c); lia.
Qed.

Lemma rfind_get (c : ascii) (s : string) :
  0 <= Str.rfind c s ->
  String.get (Z.to_nat (Str.rfind c s)) s = Some c.
Proof.
  induction s as [|d s IH]; [cbn; lia |].
  cbn [Str.rfind].
  destruct (Z.leb_spec 0 (Str.rfind c s)) as [Hr | Hr]; intros H.
  - replace (Z.to_nat (Str.rfind c s + 1)) with (S (Z.to_nat (Str.rfind c s))) by lia.
    cbn [String.get]. exact (IH Hr).
  - destruct (Ascii.eqb_spec d c) as [-> | _]; [reflexivity | lia].
Qed.

Lemma substring_0_full (s : string) : String.substring 0 (String.length s) s = s.
Proof.
  induction s as [|c s IH]; [reflexivity |].
  cbn [String.length String.substring]. rewrite IH. reflexivity.
Qed.

(** [s[:i] + s[i:]] is [s]. *)
Lemma substring_split (s : string) (i : nat) :
  (i <= String.length s)%nat ->
  (String.substring 0 i s ++ String.substring i (String.length s - i) s)%string = s.
Proof.
  revert i. induction s as [|c s IH]; intros [|i] H; cbn [String.length] in *.
  - reflexivity.
  - lia.
  - cbn [String.substring append Nat.sub]. rewrite substring_0_full. reflexivity.
  - cbn [String.substring append Nat.sub]. rewrite IH by lia. reflexivity.
Qed.

Lemma contains_substring (c : ascii) (n m : nat) (s : string) :
  Str.contains c s = false -> Str.contains c (String.substring n m s) = false.
Proof.
  revert n m. induction s as [|d s IH]; intros n m H.
  - destruct n, m; reflexivity.
  - cbn [Str.contains] in H. apply Bool.orb_false_iff in H. destruct H as [H1 H2].
    destruct n as [|n].
    + destruct m as [|m]; [reflexivity |].
      cbn [String.substring Str.contains]. rewrite H1, IH by exact H2. reflexivity.
    + cbn [String.substring]. apply IH. exact H2.
Qed.

Lemma substring_head (c : ascii) (n m : nat) (s : string) :
  String.get n s = Some c ->
  exists t, String.substring n (S m) s = String c t.
Proof.
  revert n. induction s as [|d s IH]; intros n H.
  - destruct n; discriminate.
  - destruct n as [|n]; cbn [String.get String.substring] in *.
    + injection H as ->. eexists. reflexivity.
    + exact (IH n H).
Qed.

Lemma length_substring (n m : nat) (s : string) :
  (n + m <= String.length s)%nat ->
  String.length (String.substring n m s) = m.
Proof.
  revert n m. induction s as [|d s IH]; intros n m H; cbn [String.length] in H.
  - assert (n = 0%nat) by lia. assert (m = 0%nat) by lia. subst. reflexivity.
  - destruct n as [|n].
    + destruct m as [|m]; [reflexivity |].
      cbn [String.substring String.length]. rewrite IH by lia. reflexivity.
    + cbn [String.substring]. apply IH. lia.
Qed.

(** The suffix of a name is empty, or it is the end of the name from its
    last dot on. *)
Lemma suffix_cases (name : string) :
  Pathlib.suffix name = EmptyString
  \/ exists i t,
       (i < String.length name)%nat
       /\ Pathlib.suffix name = String.substring i (String.length name - i) name
       /\ Pathlib.suffix name = String "." t.
Proof.
  unfold Pathlib.suffix.
  pose proof (rfind_range "." name) as Hr.
  destruct (Z.ltb_spec 0 (Str.rfind "." name)) as [H0 | H0]; cbn [andb];
    [| left; reflexivity].
  destruct (Z.ltb_spec (Str.rfind "." name) (Str.len name - 1)) as [H1 | H1];
    [| left; reflexivity].
  right. unfold Str.slice, Str.len in *.
  set (i := Z.to_nat (Str.rfind "." name)).
  assert (Hi : (i < String.length name)%nat) by lia.
  replace (Z.to_nat (Z.of_nat (String.length name) - Str.rfind "." name))
    with (String.length name - i)%nat by lia.
  destruct (substring_head "." i (String.length name - i - 1) name) as [t Ht].
  { apply rfind_get. lia. }
  replace (S (String.length name - i - 1)) with (String.length name - i)%nat in Ht by lia.
  exists i, t. auto.
Qed.

(** The checksum file of an asset is called as the asset, with [.sha256]
    after it. *)
Lemma sha256_file_name_appends (name : string) :
  Str.is_empty name = false ->
  Str.contains "/" name = false ->
  sha256_file_name name = Ok (name ++ ".sha256")%string.
Proof.
  intros Hne Hsep. unfold sha256_file_name, Pathlib.with_suffix.
  rewrite Hne.
  destruct (suffix_cases name) as [E | [i [t [Hi [Esub Edot]]]]].
  - rewrite E. reflexivity.
  - assert (Hc : Str.contains "/" (Pathlib.suffix name ++ ".sha256") = false).
    { rewrite contains_append, Esub, contains_substring by exact Hsep.
      reflexivity. }
    assert (Hl : String.length (Pathlib.suffix name) = (String.length name - i)%nat).
    { rewrite Esub. apply length_substring. lia. }
    assert (Hsplit : (String.substring 0 i name ++ Pathlib.suffix name)%string = name).
    { rewrite Esub. apply substring_split. lia. }
    rewrite Hc. unfold Str.slice, Str.len. rewrite Hl.
    replace (Z.to_nat 0) with 0%nat by reflexivity.
    replace (Z.to_nat (Z.of_nat (String.length name)
                       - Z.of_nat (String.length name - i) - 0)) with i by lia.
    rewrite Edot in *.
    cbn [append Str.is_empty negb andb orb Str.startswith String.prefix].
    destruct (ascii_dec "." ".") as [_ | N]; [| contradiction].
    assert (Hnd : String.eqb (String "." (t ++ ".sha256")) "." = false).
    { cbn [String.eqb]. rewrite Ascii.eqb_refl. destruct t; reflexivity. }
    assert (Hp : String.prefix "" (t ++ ".sha256") = true).
    { destruct (t ++ ".sha256")%string; reflexivity. }
    rewrite Hnd, Hp. cbn [negb andb orb].
    replace (String.substring 0 i name ++ String "." (t ++ ".sha256"))%string
      with (name ++ ".sha256")%string; [reflexivity |].
    rewrite <- Hsplit at 1.
    exact (append_assoc (String.substring 0 i name) (String "." t) ".sha256").
Qed.

End PathFacts.

(** *** Facts about dictionaries *)

Module DictFacts.

Lemma dict_get_set_same {V : Type} (d : dict V) (k : string) (v : V) :
  dict_get (dict_set d k v) k = Some v.
Proof.
  induction d as [|[k' v'] d IH]; cbn [dict_set dict_get].
  - rewrite String.eqb_refl. reflexivity.
  - destruct (String.eqb k k') eqn:E; cbn [dict_get]; rewrite ?String.eqb_refl, ?E;
      [reflexivity | exact IH].
Qed.

Lemma dict_get_set_other {V : Type} (d : dict V) (k k' : string) (v : V) :
  k' <> k -> dict_get (dict_set d k v) k' = dict_get d k'.
Proof.
  intros N. induction d as [|[k0 v0] d IH]; cbn [dict_set dict_get].
  - destruct (String.eqb_spec k' k); [contradiction | reflexivity].
  - destruct (String.eqb_spec k k0) as [-> | N0]; cbn [dict_get].
    + destruct (String.eqb_spec k' k0); [contradiction | reflexivity].
    + destruct (String.eqb k' k0); [reflexivity | exact IH].
Qed.

Lemma dict_get_None {V : Type} (d : dict V) (k : string) :
  dict_get d k = None <-> ~ In k (map fst d).
Proof.
  induction d as [|[k' v'] d IH]; cbn [dict_get map fst In].
  - tauto.
  - destruct (String.eqb_spec k k') as [-> | N].
    + split; [discriminate | intros H; exfalso; apply H; left; reflexivity].
    + rewrite IH. split; [intros H [E | I]; [congruence | tauto] | tauto].
Qed.

Lemma dict_get_In {V : Type} (d : dict V) (k : string) (v : V) :
  dict_get d k = Some v -> In (k, v) d.
Proof.
  induction d as [|[k' v'] d IH]; cbn [dict_get In]; [discriminate |].
  destruct (String.eqb_spec k k') as [-> | N]; intros H.
  - injection H as ->. left. reflexivity.
  - right. exact (IH H).
Qed.

Lemma dict_set_In {V : Type} (d : dict V) (k k' : string) (v v' : V) :
  In (k', v') (dict_set d k v) -> (k', v') = (k, v) \/ In (k', v') d.
Proof.
  induction d as [|[k0 v0] d IH]; cbn [dict_set In].
  - intros [E | []]. left. symmetry. exact E.
  - destruct (String.eqb k k0); cbn [In].
    + intros [E | I]; [left; symmetry; exact E | right; right; exact I].
    + intros [E | I]; [right; left; exact E |].
      destruct (IH I) as [E | I']; [left; exact E | right; right; exact I'].
Qed.

End DictFacts.

(** *** Facts about find_asset *)

Module FindFacts.
Import StrFacts.

Lemma lookup_file_Some (name : string) (dir : list file) (f : file) :
  lookup_file name dir = Some f -> In f dir /\ f_name f = name.
Proof.
  unfold lookup_file. intros H. apply find_some in H. destruct H as [H1 H2].
  split; [exact H1 | apply String.eqb_eq; exact H2].
Qed.

Lemma glob_plain_append (a b : string) :
  glob_plain (a ++ b) = glob_plain a && glob_plain b.
Proof.
  unfold glob_plain, Pathlib.is_wildcard_pattern.
  rewrite !contains_append.
  repeat match goal with
         | |- context [Str.contains ?c ?s] => destruct (Str.contains c s)
         end; reflexivity.
Qed.

Lemma file_name_plain (p : string) :
  file_name_pattern p = true -> glob_plain p = true.
Proof.
  unfold file_name_pattern. destruct (glob_plain p); [reflexivity | discriminate].
Qed.

Lemma file_name_not_empty (p : string) :
  file_name_pattern p = true -> Str.is_empty p = false.
Proof.
  unfold file_name_pattern.
  destruct (glob_plain p), (Str.is_empty p); cbn [andb negb]; try discriminate.
  reflexivity.
Qed.

(** [glob] answers exactly for the patterns that name one file. *)
Lemma glob_of_plain (dir : list file) (p : string) :
  file_name_pattern p = true ->
  glob dir p = Ok (match lookup_file p dir with Some f => [f] | None => [] end).
Proof.
  unfold file_name_pattern, glob_plain, glob.
  destruct (Str.is_empty p); [rewrite Bool.andb_false_r; discriminate |].
  destruct (Pathlib.is_wildcard_pattern p || Str.contains "/" p); [discriminate |].
  destruct (String.eqb p "."); [discriminate |].
  destruct (String.eqb p ".."); [discriminate | reflexivity].
Qed.

Lemma glob_Ok (dir : list file) (p : string) (r : list file) :
  glob dir p = Ok r -> file_name_pattern p = true.
Proof.
  unfold file_name_pattern, glob_plain, glob.
  destruct (Str.is_empty p); [discriminate |].
  destruct (Pathlib.is_wildcard_pattern p || Str.contains "/" p); [discriminate |].
  destruct (String.eqb p "."); [discriminate |].
  destruct (String.eqb p ".."); [discriminate | reflexivity].
Qed.

(** A file that [find_asset] returns is in the directory and is called
    as one of the patterns. *)
Lemma find_asset_Some (dir : list file) (pats : list string) (f : file) :
  find_asset dir pats = Ok (Some f) ->
  In f dir /\ In (f_name f) pats /\ glob_plain (f_name f) = true.
Proof.
  induction pats as [|p pats IH]; cbn [find_asset]; [discriminate |].
  destruct (glob dir p) as [ms | e |] eqn:G; cbn [bind]; try discriminate.
  pose proof (glob_Ok _ _ _ G) as Hp.
  rewrite (glob_of_plain dir p Hp) in G. injection G as G.
  destruct ms as [|m ms].
  - intros H. destruct (IH H) as [H1 [H2 H3]]. cbn [In]. auto.
  - intros H. injection H as ->.
    destruct (lookup_file p dir) as [g |] eqn:L; [| discriminate].
    injection G as -> _. apply lookup_file_Some in L. destruct L as [L1 L2].
    cbn [In]. rewrite L2. auto using file_name_plain.
Qed.

(** [find_asset] returns nothing only if no pattern names a file. *)
Lemma find_asset_None (dir : list file) (pats : list string) :
  find_asset dir pats = Ok None ->
  forall p, In p pats -> lookup_file p dir = None.
Proof.
  induction pats as [|p pats IH]; cbn [find_asset]; [intros _ q [] |].
  destruct (glob dir p) as [ms | e |] eqn:G; cbn [bind]; try discriminate.
  pose proof (glob_Ok _ _ _ G) as Hp.
  rewrite (glob_of_plain dir p Hp) in G. injection G as G.
  destruct ms as [|m ms]; [| discriminate].
  intros H q [<- | Hq]; [| exact (IH H q Hq)].
  destruct (lookup_file p dir); [discriminate | reflexivity].
Qed.

(** The shape of a row of the platform table. *)
Lemma config_shape (vc key : string) (cfg : config) :
  In (key, cfg) (platform_configs vc) ->
  exists E B,
    patterns cfg = [(("CodeSwitch-v" ++ vc) ++ E)%string; B]
    /\ filename cfg = (("CodeSwitch-v" ++ vc) ++ E)%string
    /\ glob_plain E = true /\ file_name_pattern B = true
    /\ Str.is_empty B = false.
Proof.
  unfold platform_configs. cbn [In].
  intros [H | [H | [H | [H | [H | []]]]]]; injection H as <- <-;
    eexists; eexists; cbn [patterns filename];
    (split; [reflexivity |]); (split; [reflexivity |]); repeat split; reflexivity.
Qed.

Lemma first_pattern_plain (vc E : string) :
  glob_plain E = true ->
  glob_plain (("CodeSwitch-v" ++ vc) ++ E) = glob_plain vc.
Proof.
  intros HE. rewrite !glob_plain_append, HE.
  change (glob_plain "CodeSwitch-v") with true.
  cbn [andb]. apply Bool.andb_true_r.
Qed.

(** The first pattern of a row is the name of a file. *)
Lemma first_pattern_name (vc E : string) :
  glob_plain E = true ->
  file_name_pattern (("CodeSwitch-v" ++ vc) ++ E) = glob_plain vc.
Proof.
  intros HE. unfold file_name_pattern. rewrite (first_pattern_plain vc E HE).
  change (("CodeSwitch-v" ++ vc) ++ E)%string
    with (String "C" (("odeSwitch-v" ++ vc) ++ E)).
  cbn [Str.is_empty negb]. rewrite Bool.andb_true_r.
  change (String.eqb (String "C" (("odeSwitch-v" ++ vc) ++ E)) ".") with false.
  change (String.eqb (String "C" (("odeSwitch-v" ++ vc) ++ E)) "..") with false.
  cbn [negb]. rewrite !Bool.andb_true_r. reflexivity.
Qed.

(** With a plain version, [find_asset] answers for every platform. *)
Lemma find_asset_total (dir : list file) (vc key : string) (cfg : config) :
  glob_plain vc = true -> In (key, cfg) (platform_configs vc) ->
  exists r, find_asset dir (patterns cfg) = Ok r.
Proof.
  intros Hv Hin.
  destruct (config_shape vc key cfg Hin) as [E [B [Hp [_ [HE [HB _]]]]]].
  rewrite Hp. cbn [find_asset].
  rewrite (glob_of_plain dir _ (eq_trans (first_pattern_name vc E HE) Hv)).
  cbn [bind]. destruct (lookup_file _ dir); [eexists; reflexivity |].
  rewrite (glob_of_plain dir B HB). cbn [bind].
  destruct (lookup_file B dir); eexists; reflexivity.
Qed.

(** [find_asset] answers for a platform only if the version is plain. *)
Lemma find_asset_plain (dir : list file) (vc key : string) (cfg : config)
    (r : option file) :
  In (key, cfg) (platform_configs vc) ->
  find_asset dir (patterns cfg) = Ok r -> glob_plain vc = true.
Proof.
  intros Hin.
  destruct (config_shape vc key cfg Hin) as [E [B [Hp [_ [HE _]]]]].
  rewrite Hp. cbn [find_asset].
  destruct (glob dir _) as [ms | e |] eqn:G; cbn [bind]; try discriminate.
  intros _. apply glob_Ok in G. rewrite (first_pattern_name vc E HE) in G.
  exact G.
Qed.

(** The name of a matched asset is not empty and holds no separator. *)
Lemma matched_name_valid (dir : list file) (vc key : string) (cfg : config)
    (f : file) :
  In (key, cfg) (platform_configs vc) ->
  find_asset dir (patterns cfg) = Ok (Some f) ->
  Str.is_empty (f_name f) = false /\ Str.contains "/" (f_name f) = false.
Proof.
  intros Hin Hf.
  destruct (find_asset_Some _ _ _ Hf) as [_ [Hn Hpl]].
  split.
  - destruct (config_shape vc key cfg Hin) as [E [B [Hp [_ [_ [_ HB]]]]]].
    rewrite Hp in Hn. cbn [In] in Hn.
    destruct Hn as [<- | [<- | []]]; [reflexivity | exact HB].
  - unfold glob_plain in Hpl. apply Bool.negb_true_iff in Hpl.
    apply Bool.orb_false_iff in Hpl. tauto.
Qed.

End FindFacts.

(** *** Facts about the loop over the platforms *)

Module ScanFacts.
Import StrFacts DictFacts FindFacts StripFacts PathFacts.

(** What the comparison with the checksum file prints does not depend on
    the state, and it leaves the platforms alone. *)
Lemma check_sha256_file_frame (dir : list file) (f : file) (digest : string) :
  exists r : res (list message),
    forall st,
      check_sha256_file dir f digest st =
      match r with
      | Ok msgs => Ok (State (st_platforms st) (st_stdout st ++ msgs))
      | Raise e => Raise e
      | Unsupported => Unsupported
      end.
Proof.
  unfold check_sha256_file.
  destruct (sha256_file_name (f_name f)) as [sname | e |]; cbn [bind];
    [| exists (Raise e); reflexivity | exists Unsupported; reflexivity].
  destruct (lookup_file sname dir) as [sf |];
    [| exists (Ok []); intros [p o]; cbn; rewrite app_nil_r; reflexivity].
  destruct (Codecs.read_text (f_data sf)) as [text | e |]; cbn [bind];
    [| exists (Raise e); reflexivity | exists Unsupported; reflexivity].
  destruct (negb (Str.is_empty (Str.strip text)));
    [| exists (Ok []); intros [p o]; cbn; rewrite app_nil_r; reflexivity].
  destruct (Str.item0 (Str.split_ws (Str.strip text))) as [tok | e |]; cbn [bind];
    [| exists (Raise e); reflexivity | exists Unsupported; reflexivity].
  destruct (negb (String.eqb (Str.lower tok) (Str.lower digest)));
    [| exists (Ok []); intros [p o]; cbn; rewrite app_nil_r; reflexivity].
  exists (Ok [warning_sha256_mismatch (f_name f); computed_line digest;
              from_file_line tok]).
  intros [p o]. unfold print. cbn [st_platforms st_stdout].
  rewrite <- !app_assoc. reflexivity.
Qed.

(** The same for the body of the loop: it prints its messages after what
    was printed, and stores at most the record of its platform. *)
Lemma scan_platform_frame (dir : list file) (base : string) (item : string * config) :
  exists r : res (option asset_record * list message),
    forall st,
      scan_platform dir base st item =
      match r with
      | Ok (entry, msgs) =>
          Ok (State (match entry with
                     | Some rec => dict_set (st_platforms st) (fst item) rec
                     | None => st_platforms st
                     end)
                (st_stdout st ++ msgs))
      | Raise e => Raise e
      | Unsupported => Unsupported
      end.
Proof.
  destruct item as [key cfg]. unfold scan_platform.
  destruct (find_asset dir (patterns cfg)) as [[f |] | e |]; cbn [bind];
    [| exists (Ok (None, [warning_no_asset key])); reflexivity
     | exists (Raise e); reflexivity | exists Unsupported; reflexivity].
  destruct (check_sha256_file_frame dir f (compute_sha256 f)) as [[msgs | e |] Hr].
  - exists (Ok (Some (AssetRecord (base ++ "/" ++ filename cfg)
                        (compute_sha256 f) (get_file_size f)),
                msgs ++ [found key (f_name f) (get_file_size f)])).
    intros st. rewrite Hr. cbn [bind fst]. unfold print, set_platform.
    cbn [st_platforms st_stdout]. rewrite app_assoc. reflexivity.
  - exists (Raise e). intros st. rewrite Hr. reflexivity.
  - exists Unsupported. intros st. rewrite Hr. reflexivity.
Qed.

Lemma scan_platform_step (dir : list file) (base : string)
    (item : string * config) (st st1 : state) :
  scan_platform dir base st item = Ok st1 ->
  st_stdout st1 = st_stdout st ++ platform_messages dir base item
  /\ st_platforms st1 =
     match platform_record dir base item with
     | Some rec => dict_set (st_platforms st) (fst item) rec
     | None => st_platforms st
     end.
Proof.
  destruct (scan_platform_frame dir base item) as [r Hr].
  unfold platform_messages, platform_record.
  rewrite Hr, (Hr (State [] [])).
  destruct r as [[entry msgs] | e |]; try discriminate.
  intros H. injection H as <-. cbn [st_stdout st_platforms app].
  split; [reflexivity |].
  destruct entry as [rec |]; [| reflexivity].
  cbn [dict_set dict_get]. rewrite String.eqb_refl. reflexivity.
Qed.

(** The body of the loop succeeds from one state if it does from another. *)
Lemma scan_platform_any_state (dir : list file) (base : string)
    (item : string * config) (st st1 st' : state) :
  scan_platform dir base st item = Ok st1 ->
  exists st1', scan_platform dir base st' item = Ok st1'.
Proof.
  destruct (scan_platform_frame dir base item) as [r Hr].
  rewrite Hr, (Hr st').
  destruct r as [[entry msgs] | e |]; try discriminate.
  intros _. eexists. reflexivity.
Qed.

(** The loop prints the messages of the platforms in turn, and stores for
    each platform the record of that platform. *)
Lemma scan_platforms_spec (dir : list file) (base : string) (items : dict config) :
  forall st st',
    scan_platforms dir base st items = Ok st' ->
    st_stdout st' = st_stdout st ++ concat (map (platform_messages dir base) items)
    /\ (forall k, ~ In k (map fst items) ->
          dict_get (st_platforms st') k = dict_get (st_platforms st) k)
    /\ (NoDup (map fst items) ->
        forall key cfg, In (key, cfg) items ->
          dict_get (st_platforms st') key =
          match platform_record dir base (key, cfg) with
          | Some rec => Some rec
          | None => dict_get (st_platforms st) key
          end).
Proof.
  induction items as [|[k0 c0] items IH]; intros st st'; cbn [scan_platforms].
  - intros H. injection H as <-. cbn [map concat]. rewrite app_nil_r.
    split; [reflexivity |]. split; [reflexivity | intros _ key cfg []].
  - destruct (scan_platform dir base st (k0, c0)) as [st1 | e |] eqn:E1;
      cbn [bind]; try discriminate.
    intros H. destruct (IH st1 st' H) as [Hout [Hother Hkey]].
    destruct (scan_platform_step dir base (k0, c0) st st1 E1) as [Ho1 Hp1].
    cbn [fst] in Hp1.
    assert (Hget1 : forall k, k <> k0 ->
              dict_get (st_platforms st1) k = dict_get (st_platforms st) k).
    { intros k N. rewrite Hp1.
      destruct (platform_record dir base (k0, c0));
        [apply dict_get_set_other; exact N | reflexivity]. }
    split; [| split].
    + rewrite Hout, Ho1. cbn [map concat]. rewrite <- !app_assoc. reflexivity.
    + cbn [map fst In]. intros k N. rewrite Hother by tauto.
      apply Hget1. intros ->. tauto.
    + cbn [map fst]. intros ND key cfg Hin.
      apply NoDup_cons_iff in ND. destruct ND as [N0 ND].
      destruct Hin as [Heq | Hin].
      * injection Heq as <- <-. rewrite Hother by exact N0. rewrite Hp1.
        destruct (platform_record dir base (k0, c0));
          [apply dict_get_set_same | reflexivity].
      * rewrite (Hkey ND key cfg Hin).
        destruct (platform_record dir base (key, cfg)); [reflexivity |].
        apply Hget1. intros ->. apply N0.
        apply (in_map fst) in Hin. exact Hin.
Qed.

(** The keys of the platform table are five different names. *)
Lemma platform_keys_NoDup (vc : string) : NoDup (map fst (platform_configs vc)).
Proof.
  unfold platform_configs. cbn [map fst].
  repeat (apply NoDup_cons; [cbn [In]; intros H;
    repeat (destruct H as [H | H]; [discriminate H |]); exact H |]).
  apply NoDup_nil.
Qed.

End ScanFacts.

(** *** Facts about a platform whose asset was found *)

Module MatchFacts.
Import StrFacts DictFacts FindFacts StripFacts PathFacts ScanFacts.

Section Matched.

Variables (dir : list file) (vc key : string) (cfg : config) (f : file).
Hypothesis Hin : In (key, cfg) (platform_configs vc).
Hypothesis Hfind : find_asset dir (patterns cfg) = Ok (Some f).

Lemma matched_sha256_file_name :
  sha256_file_name (f_name f) = Ok (f_name f ++ ".sha256")%string.
Proof.
  destruct (matched_name_valid dir vc key cfg f Hin Hfind) as [H1 H2].
  apply sha256_file_name_appends; assumption.
Qed.

Lemma check_no_file (digest : string) (st : state) :
  lookup_file (f_name f ++ ".sha256") dir = None ->
  check_sha256_file dir f digest st = Ok st.
Proof.
  intros L. unfold check_sha256_file.
  rewrite matched_sha256_file_name. cbn [bind]. rewrite L. reflexivity.
Qed.

Lemma check_blank (digest : string) (st : state) (sf : file) (text : string) :
  lookup_file (f_name f ++ ".sha256") dir = Some sf ->
  Codecs.read_text (f_data sf) = Ok text ->
  Str.is_empty (Str.strip text) = true ->
  check_sha256_file dir f digest st = Ok st.
Proof.
  intros L R E. unfold check_sha256_file.
  rewrite matched_sha256_file_name. cbn [bind]. rewrite L, R. cbn [bind].
  rewrite E. reflexivity.
Qed.

Lemma check_token (digest : string) (st : state) (sf : file)
    (text tok : string) (toks : list string) :
  lookup_file (f_name f ++ ".sha256") dir = Some sf ->
  Codecs.read_text (f_data sf) = Ok text ->
  Str.split_ws (Str.strip text) = tok :: toks ->
  check_sha256_file dir f digest st =
  Ok (if negb (String.eqb (Str.lower tok) (Str.lower digest))
      then print (from_file_line tok)
             (print (computed_line digest)
                (print (warning_sha256_mismatch (f_name f)) st))
      else st).
Proof.
  intros L R T. unfold check_sha256_file.
  rewrite matched_sha256_file_name. cbn [bind]. rewrite L, R. cbn [bind].
  assert (E : Str.is_empty (Str.strip text) = false).
  { destruct (Str.strip text); [discriminate T | reflexivity]. }
  rewrite E, T. cbn [negb Str.item0 bind].
  destruct (negb (String.eqb (Str.lower tok) (Str.lower digest))); reflexivity.
Qed.

(** The record stored for the platform and the messages printed for it,
    from what the comparison with the checksum file printed. *)
Lemma matched_platform (base : string) (st1 : state) :
  check_sha256_file dir f (compute_sha256 f) (State [] []) = Ok st1 ->
  platform_record dir base (key, cfg) =
    Some (AssetRecord (base ++ "/" ++ filename cfg) (compute_sha256 f)
            (get_file_size f))
  /\ platform_messages dir base (key, cfg) =
     st_stdout st1 ++ [found key (f_name f) (get_file_size f)].
Proof.
  intros C. unfold platform_record, platform_messages, scan_platform.
  rewrite Hfind. cbn [bind]. rewrite C. cbn [bind fst].
  unfold print, set_platform. cbn [st_platforms st_stdout].
  split; [apply dict_get_set_same | reflexivity].
Qed.

Lemma check_total (digest : string) (st : state) :
  checksum_files_are_text dir ->
  exists st', check_sha256_file dir f digest st = Ok st'.
Proof.
  intros Htext.
  destruct (lookup_file (f_name f ++ ".sha256") dir) as [sf |] eqn:L.
  - destruct (lookup_file_Some _ _ _ L) as [Hsf Hname].
    destruct (Htext sf (f_name f) Hsf Hname) as [text R].
    destruct (Str.is_empty (Str.strip text)) eqn:E.
    + exists st. exact (check_blank digest st sf text L R E).
    + destruct (strip_split_ws text E) as [tok [toks T]].
      eexists. exact (check_token digest st sf text tok toks L R T).
  - exists st. exact (check_no_file digest st L).
Qed.

End Matched.

End MatchFacts.

(** *** Facts about a whole run *)

Module RunFacts.
Import StrFacts DictFacts FindFacts StripFacts PathFacts ScanFacts MatchFacts.

Lemma scan_platform_total (dir : list file) (base vc key : string)
    (cfg : config) (st : state) :
  glob_plain vc = true -> checksum_files_are_text dir ->
  In (key, cfg) (platform_configs vc) ->
  exists st1, scan_platform dir base st (key, cfg) = Ok st1.
Proof.
  intros Hv Htext Hin.
  destruct (find_asset_total dir vc key cfg Hv Hin) as [[f |] Hf].
  - destruct (check_total dir vc key cfg f Hin Hf (compute_sha256 f) st Htext)
      as [st' C].
    unfold scan_platform. rewrite Hf. cbn [bind]. rewrite C. cbn [bind].
    eexists. reflexivity.
  - unfold scan_platform. rewrite Hf. cbn [bind]. eexists. reflexivity.
Qed.

Lemma scan_platforms_total (dir : list file) (base vc : string)
    (items : dict config) :
  glob_plain vc = true -> checksum_files_are_text dir ->
  incl items (platform_configs vc) ->
  forall st, exists st', scan_platforms dir base st items = Ok st'.
Proof.
  intros Hv Htext. induction items as [|[k c] items IH]; intros Hincl st.
  - exists st. reflexivity.
  - cbn [scan_platforms].
    destruct (scan_platform_total dir base vc k c st Hv Htext) as [st1 E1].
    { apply Hincl. left. reflexivity. }
    rewrite E1. cbn [bind]. apply IH.
    intros x Hx. apply Hincl. right. exact Hx.
Qed.

(** A run with both arguments, an existing directory, a plain version,
    checksum files that are text and release notes that can be searched
    completes, and its manifest holds for each platform the record of
    that platform. *)
Lemma main_completes (w : world) (prog version_arg assets_dir : string)
    (rest : list string) (dir : list file) (notes_text : string) :
  let vc := Str.lstrip "v" version_arg in
  listdir w assets_dir = Some dir ->
  glob_plain vc = true ->
  checksum_files_are_text dir ->
  extract_notes w vc = Ok notes_text ->
  exists plats,
    main w (prog :: version_arg :: assets_dir :: rest) =
      completed_run w vc dir (output_file_of rest) notes_text plats
    /\ forall key cfg, In (key, cfg) (platform_configs vc) ->
         dict_get plats key = platform_record dir (base_url vc) (key, cfg).
Proof.
  intros vc Hdir Hv Htext Hnotes.
  destruct (scan_platforms_total dir (base_url vc) vc (platform_configs vc)
              Hv Htext (incl_refl _) (State [] [])) as [st' Hscan].
  destruct (scan_platforms_spec dir (base_url vc) (platform_configs vc)
              (State [] []) st' Hscan) as [Hout [_ Hkey]].
  exists (st_platforms st'). split.
  - unfold main, completed_run, output_file_of.
    rewrite Hdir. fold vc. rewrite Hscan, Hnotes.
    cbn [st_stdout app] in Hout. rewrite Hout.
    destruct rest; reflexivity.
  - intros key cfg Hin.
    rewrite (Hkey (platform_keys_NoDup vc) key cfg Hin).
    cbn [st_platforms dict_get].
    destruct (platform_record dir (base_url vc) (key, cfg)); reflexivity.
Qed.

(** What [main] did when it wrote a manifest. *)
Lemma main_written (w : world) (argv : list string) (status : Z)
    (out : list message) (o : string) (m : manifest) :
  main w argv = Exited status out (Some (o, m)) ->
  exists prog version_arg assets_dir rest dir st,
    argv = prog :: version_arg :: assets_dir :: rest
    /\ listdir w assets_dir = Some dir
    /\ scan_platforms dir (base_url (Str.lstrip "v" version_arg)) (State [] [])
         (platform_configs (Str.lstrip "v" version_arg)) = Ok st
    /\ m = Manifest ("v" ++ Str.lstrip "v" version_arg) (utcnow w) (notes m)
             (st_platforms st)
    /\ extract_notes w (Str.lstrip "v" version_arg) = Ok (notes m)
    /\ status = 0.
Proof.
  unfold main.
  destruct argv as [|prog [|version_arg [|assets_dir rest]]]; try discriminate.
  destruct (listdir w assets_dir) as [dir |] eqn:Hdir; [| discriminate].
  destruct (scan_platforms dir _ _ _) as [st | e |] eqn:Hscan; try discriminate.
  destruct (extract_notes w _) as [n | e |] eqn:Hn; try discriminate.
  intros H. injection H as <- _ _ <-.
  exists prog, version_arg, assets_dir, rest, dir, st.
  cbn [notes]. repeat split; assumption || reflexivity.
Qed.

(** The record of a platform is the one of the asset that was found. *)
Lemma platform_record_shape (dir : list file) (base key : string)
    (cfg : config) (r : asset_record) :
  platform_record dir base (key, cfg) = Some r ->
  exists f,
    find_asset dir (patterns cfg) = Ok (Some f)
    /\ r = AssetRecord (base ++ "/" ++ filename cfg) (compute_sha256 f)
             (get_file_size f).
Proof.
  unfold platform_record, scan_platform.
  destruct (find_asset dir (patterns cfg)) as [[f |] | e |]; cbn [bind];
    try discriminate.
  destruct (check_sha256_file dir f (compute_sha256 f) (State [] []))
    as [st1 | e |]; cbn [bind]; try discriminate.
  unfold print, set_platform. cbn [st_platforms fst].
  rewrite dict_get_set_same. intros H. injection H as <-.
  exists f. split; reflexivity.
Qed.

Lemma record_well_formed (vc name : string) (f : file) :
  well_formed_record
    (AssetRecord (base_url vc ++ "/" ++ name) (compute_sha256 f)
       (get_file_size f)).
Proof.
  unfold well_formed_record. cbn [url sha256 size].
  rewrite compute_sha256_one_pass.
  destruct (sha256_hex_shape (f_data f)) as [H1 H2].
  repeat split; try assumption.
  - unfold Str.startswith, base_url. rewrite append_assoc.
    apply prefix_append.
  - unfold get_file_size. lia.
Qed.

(** Every record the loop stores is well formed. *)
Lemma scan_platforms_well_formed (dir : list file) (vc : string)
    (items : dict config) :
  forall st st',
    scan_platforms dir (base_url vc) st items = Ok st' ->
    (forall k r, In (k, r) (st_platforms st) -> well_formed_record r) ->
    forall k r, In (k, r) (st_platforms st') -> well_formed_record r.
Proof.
  induction items as [|[k0 c0] items IH]; intros st st'; cbn [scan_platforms].
  - intros H. injection H as <-. auto.
  - destruct (scan_platform dir (base_url vc) st (k0, c0)) as [st1 | e |] eqn:E1;
      cbn [bind]; try discriminate.
    intros H Hst. apply (IH st1 st' H).
    destruct (scan_platform_step _ _ _ _ _ E1) as [_ Hp]. rewrite Hp.
    destruct (platform_record dir (base_url vc) (k0, c0)) as [rec |] eqn:R;
      [| exact Hst].
    intros k r Hin. apply dict_set_In in Hin. destruct Hin as [Heq | Hin];
      [| exact (Hst k r Hin)].
    injection Heq as _ ->.
    destruct (platform_record_shape _ _ _ _ _ R) as [f [_ ->]].
    apply record_well_formed.
Qed.

End RunFacts.

(** *** Facts about a directory without one checksum file *)

Module WithoutFacts.
Import StrFacts DictFacts FindFacts StripFacts PathFacts ScanFacts MatchFacts.

Lemma last_char_append (a b : string) (d : ascii) :
  last_char (a ++ b) d = last_char b (last_char a d).
Proof.
  revert d. induction a as [|c a IH]; intros d; [reflexivity |].
  cbn [append last_char]. apply IH.
Qed.

(** No pattern of the platform table ends as a checksum file does. *)
Lemma pattern_not_checksum (vc key p x : string) (cfg : config) :
  In (key, cfg) (platform_configs vc) -> In p (patterns cfg) ->
  p <> (x ++ ".sha256")%string.
Proof.
  intros Hin Hp E.
  assert (H6 : last_char p " " = "6"%char).
  { rewrite E, last_char_append. reflexivity. }
  unfold platform_configs in Hin. cbn [In] in Hin.
  destruct Hin as [H | [H | [H | [H | [H | []]]]]]; injection H as <- <-;
    cbn [patterns In] in Hp; destruct Hp as [<- | [<- | []]];
    cbn [last_char append] in H6; repeat rewrite last_char_append in H6;
    cbn [last_char] in H6; discriminate H6.
Qed.

Lemma lookup_without_other (n s : string) (dir : list file) :
  n <> s -> lookup_file n (without_file s dir) = lookup_file n dir.
Proof.
  intros N. unfold lookup_file, without_file.
  induction dir as [|f dir IH]; [reflexivity |].
  cbn [filter find].
  destruct (String.eqb_spec (f_name f) s) as [E | E]; cbn [negb find].
  - destruct (String.eqb_spec (f_name f) n) as [E' | _]; [congruence | exact IH].
  - destruct (String.eqb (f_name f) n); [reflexivity | exact IH].
Qed.

Lemma lookup_without_same (s : string) (dir : list file) :
  lookup_file s (without_file s dir) = None.
Proof.
  unfold lookup_file, without_file.
  induction dir as [|f dir IH]; [reflexivity |].
  cbn [filter].
  destruct (String.eqb (f_name f) s) eqn:E; cbn [negb find]; [exact IH |].
  rewrite E. exact IH.
Qed.

Lemma glob_without (s p : string) (dir : list file) :
  p <> s -> glob (without_file s dir) p = glob dir p.
Proof.
  intros N. unfold glob. rewrite (lookup_without_other p s dir N). reflexivity.
Qed.

Lemma find_asset_without (s : string) (dir : list file) (pats : list string) :
  (forall p, In p pats -> p <> s) ->
  find_asset (without_file s dir) pats = find_asset dir pats.
Proof.
  induction pats as [|p pats IH]; intros H; [reflexivity |].
  cbn [find_asset]. rewrite (glob_without s p dir) by (apply H; left; reflexivity).
  destruct (glob dir p) as [[|m ms] | e |]; cbn [bind]; try reflexivity.
  apply IH. intros q Hq. apply H. right. exact Hq.
Qed.

Section Blank.

Variables (dir : list file) (s : string) (sf : file) (text : string).
Hypothesis Hlook : lookup_file s dir = Some sf.
Hypothesis Hread : Codecs.read_text (f_data sf) = Ok text.
Hypothesis Hblank : Str.is_empty (Str.strip text) = true.

(** A checksum file that holds white space only might as well not be
    there: the comparison does the same with and without it. *)
Lemma check_without_blank (f : file) (digest : string) (st : state) :
  check_sha256_file (without_file s dir) f digest st =
  check_sha256_file dir f digest st.
Proof.
  unfold check_sha256_file.
  destruct (sha256_file_name (f_name f)) as [n | e |]; cbn [bind]; try reflexivity.
  destruct (String.eqb_spec n s) as [-> | N].
  - rewrite lookup_without_same, Hlook, Hread. cbn [bind].
    rewrite Hblank. reflexivity.
  - rewrite (lookup_without_other n s dir N). reflexivity.
Qed.

Lemma scan_platform_without_blank (base vc x key : string) (cfg : config)
    (st : state) :
  s = (x ++ ".sha256")%string ->
  In (key, cfg) (platform_configs vc) ->
  scan_platform (without_file s dir) base st (key, cfg) =
  scan_platform dir base st (key, cfg).
Proof.
  intros Hs Hin. unfold scan_platform.
  rewrite (find_asset_without s dir (patterns cfg)).
  2: { intros p Hp. rewrite Hs. exact (pattern_not_checksum vc key p x cfg Hin Hp). }
  destruct (find_asset dir (patterns cfg)) as [[f |] | e |]; cbn [bind];
    try reflexivity.
  rewrite check_without_blank. reflexivity.
Qed.

Lemma scan_platforms_without_blank (base vc x : string) (items : dict config) :
  s = (x ++ ".sha256")%string ->
  incl items (platform_configs vc) ->
  forall st,
    scan_platforms (without_file s dir) base st items =
    scan_platforms dir base st items.
Proof.
  intros Hs. induction items as [|[k c] items IH]; intros Hincl st;
    [reflexivity |].
  cbn [scan_platforms].
  rewrite (scan_platform_without_blank base vc x k c st Hs)
    by (apply Hincl; left; reflexivity).
  destruct (scan_platform dir base st (k, c)); cbn [bind]; try reflexivity.
  apply IH. intros y Hy. apply Hincl. right. exact Hy.
Qed.

End Blank.

End WithoutFacts.

(** *** Facts about the search for the release notes *)

Module NotesFacts.
Import StrFacts.

Lemma rstrip_ws_app (a b : string) :
  Str.rstrip_ws (a ++ b) =
  if Str.is_empty (Str.rstrip_ws b) then Str.rstrip_ws a
  else (a ++ Str.rstrip_ws b)%string.
Proof.
  induction a as [|c a IH]; cbn [append Str.rstrip_ws].
  - destruct (Str.rstrip_ws b); reflexivity.
  - rewrite IH. destruct (Str.rstrip_ws b) as [|d r]; cbn [Str.is_empty].
    + reflexivity.
    + assert (E : Str.is_empty (a ++ String d r) = false) by (destruct a; reflexivity).
      rewrite E, Bool.andb_false_r. reflexivity.
Qed.

Lemma rstrip_ws_idempotent (b : string) :
  Str.rstrip_ws (Str.rstrip_ws b) = Str.rstrip_ws b.
Proof.
  induction b as [|c b IH]; [reflexivity |].
  cbn [Str.rstrip_ws].
  destruct (Str.isspace c && Str.is_empty (Str.rstrip_ws b)) eqn:E; [reflexivity |].
  cbn [Str.rstrip_ws]. rewrite IH, E. reflexivity.
Qed.

Lemma lstrip_rstrip_ws (b : string) :
  Str.lstrip_ws (Str.rstrip_ws b) = Str.rstrip_ws (Str.lstrip_ws b).
Proof.
  induction b as [|c b IH]; [reflexivity |].
  cbn [Str.rstrip_ws Str.lstrip_ws].
  destruct (Str.isspace c) eqn:Ec; cbn [andb].
  - destruct (Str.rstrip_ws b) as [|d r] eqn:Er; cbn [Str.is_empty].
    + rewrite <- IH. reflexivity.
    + cbn [Str.lstrip_ws]. rewrite Ec. exact IH.
  - cbn [Str.lstrip_ws Str.rstrip_ws]. rewrite Ec. reflexivity.
Qed.

(** White space at the end of a text does not change what [strip] makes
    of it. *)
Lemma strip_rstrip_ws (b : string) : Str.strip (Str.rstrip_ws b) = Str.strip b.
Proof.
  unfold Str.strip. rewrite lstrip_rstrip_ws, rstrip_ws_idempotent. reflexivity.
Qed.

Lemma strip_blank (b : string) :
  Str.rstrip_ws b = EmptyString -> Str.strip b = EmptyString.
Proof.
  intros E. unfold Str.strip. rewrite <- lstrip_rstrip_ws, E. reflexivity.
Qed.

Lemma contains_rstrip_ws (c : ascii) (s : string) :
  Str.contains c s = false -> Str.contains c (Str.rstrip_ws s) = false.
Proof.
  induction s as [|d s IH]; [reflexivity |].
  cbn [Str.contains Str.rstrip_ws]. intros H.
  apply Bool.orb_false_iff in H. destruct H as [H1 H2].
  destruct (Str.isspace d && Str.is_empty (Str.rstrip_ws s)); [reflexivity |].
  cbn [Str.contains]. rewrite H1, (IH H2). reflexivity.
Qed.

Lemma split_not_nil (sep : ascii) (s : string) : Str.split sep s <> [].
Proof.
  destruct s as [|c s]; cbn [Str.split]; [discriminate |].
  destruct (Ascii.eqb c sep); [discriminate |].
  destruct (Str.split sep s); discriminate.
Qed.

(** [a + sep + t] splits into [a] and the pieces of [t], if [sep] is not
    in [a]. *)
Lemma split_app (sep : ascii) (a t : string) :
  Str.contains sep a = false ->
  Str.split sep (a ++ String sep t) = a :: Str.split sep t.
Proof.
  induction a as [|c a IH]; cbn [append Str.split Str.contains]; intros H.
  - rewrite Ascii.eqb_refl. reflexivity.
  - apply Bool.orb_false_iff in H. destruct H as [H1 H2].
    rewrite Ascii.eqb_sym, H1, (IH H2). reflexivity.
Qed.

Lemma split_no_sep (sep : ascii) (s : string) :
  Str.contains sep s = false -> Str.split sep s = [s].
Proof.
  induction s as [|c s IH]; cbn [Str.split Str.contains]; intros H; [reflexivity |].
  apply Bool.orb_false_iff in H. destruct H as [H1 H2].
  rewrite Ascii.eqb_sym, H1, (IH H2). reflexivity.
Qed.

(** The first piece of [a + z] starts with [a], if [sep] is not in [a]. *)
Lemma split_first (sep : ascii) (a z : string) :
  Str.contains sep a = false ->
  exists w ws, Str.split sep (a ++ z) = (a ++ w)%string :: ws.
Proof.
  induction a as [|c a IH]; cbn [append Str.contains]; intros H.
  - destruct (Str.split sep z) as [|w ws] eqn:E; [destruct (split_not_nil _ _ E) |].
    exists w, ws. reflexivity.
  - apply Bool.orb_false_iff in H. destruct H as [H1 H2].
    destruct (IH H2) as [w [ws E]].
    exists w, ws. cbn [Str.split]. rewrite Ascii.eqb_sym, H1, E. reflexivity.
Qed.

Lemma concat_cons_char (sep : string) (c : ascii) (w : string) (ws : list string) :
  String.concat sep (String c w :: ws) = String c (String.concat sep (w :: ws)).
Proof. destruct ws; reflexivity. Qed.

(** [sep.join(s.split(sep))] is [s]. *)
Lemma join_split (sep : ascii) (s : string) :
  Str.join (String sep EmptyString) (Str.split sep s) = s.
Proof.
  unfold Str.join. induction s as [|c s IH]; [reflexivity |].
  cbn [Str.split]. destruct (Ascii.eqb_spec c sep) as [-> | N].
  - destruct (Str.split sep s) as [|w ws] eqn:E; [destruct (split_not_nil _ _ E) |].
    cbn [String.concat append] in *. rewrite IH. reflexivity.
  - destruct (Str.split sep s) as [|w ws] eqn:E; [destruct (split_not_nil _ _ E) |].
    rewrite concat_cons_char, IH. reflexivity.
Qed.

Lemma lstrip_ws_nonspace (c : ascii) (s : string) :
  Str.isspace c = false -> Str.lstrip_ws (String c s) = String c s.
Proof. intros H. cbn [Str.lstrip_ws]. rewrite H. reflexivity. Qed.

(** What [strip] leaves of a text that starts with the heading starts
    with the heading. *)
Lemma strip_heading (z : string) :
  exists z', Str.strip (Re.HEADING ++ z) = (Re.HEADING ++ z')%string
             /\ z' = (if Str.is_empty (Str.rstrip_ws z) then EmptyString
                      else Str.rstrip_ws z).
Proof.
  unfold Str.strip.
  change (Re.HEADING ++ z)%string with (String "#" (" Code Switch v" ++ z)).
  rewrite lstrip_ws_nonspace by reflexivity.
  change (String "#" (" Code Switch v" ++ z)) with (Re.HEADING ++ z)%string.
  rewrite rstrip_ws_app.
  destruct (Str.rstrip_ws z) as [|d r]; cbn [Str.is_empty];
    eexists; (split; [| reflexivity]).
  - rewrite append_nil_r. vm_compute. reflexivity.
  - reflexivity.
Qed.

Lemma heading_startswith (x : string) :
  Str.startswith (Re.HEADING ++ x) "# " = true.
Proof.
  unfold Str.startswith.
  change (Re.HEADING ++ x)%string with ("# " ++ ("Code Switch v" ++ x))%string.
  apply prefix_append.
Qed.

(** The first line of such a text starts with [# ]. *)
Lemma heading_line (z : string) :
  exists line0 lines',
    Str.split Str.LF (Str.strip (Re.HEADING ++ z)) = line0 :: lines'
    /\ Str.startswith line0 "# " = true.
Proof.
  destruct (strip_heading z) as [z' [E _]]. rewrite E.
  destruct (split_first Str.LF Re.HEADING z') as [w [ws Ew]]; [reflexivity |].
  exists (Re.HEADING ++ w)%string, ws. split; [exact Ew | apply heading_startswith].
Qed.

(** *** The pattern *)

Lemma parse_dotted (v : string) :
  dotted_version v = true -> exists p, Re.parse v = Ok p.
Proof.
  unfold dotted_version.
  induction v as [|c v IH]; cbn [list_ascii_of_string forallb Re.parse];
    [intros _; eexists; reflexivity |].
  intros H. apply Bool.andb_true_iff in H. destruct H as [Hc Hv].
  destruct (IH Hv) as [p Ep]. rewrite Ep. cbn [bind].
  destruct (Ascii.eqb c ".") eqn:Ed; [eexists; reflexivity |].
  cbn [orb] in Hc. apply Bool.negb_true_iff in Hc.
  destruct (Ascii.eqb_spec c ")") as [-> | _]; [discriminate Hc |].
  rewrite Hc. eexists. reflexivity.
Qed.

(** The pattern of a version matches the version itself. *)
Lemma match_parse (v : string) (p : list Re.atom) (rest : string) :
  Re.parse v = Ok p -> Re.match_atoms p (v ++ rest) = Some (v, rest).
Proof.
  revert p. induction v as [|c v IH]; intros p; cbn [Re.parse append].
  - intros H. injection H as <-. reflexivity.
  - destruct (Ascii.eqb c "."); [| destruct (Ascii.eqb c ")"); [discriminate |];
                                   destruct (Re.special c); [discriminate |]];
      destruct (Re.parse v) as [q | e |]; cbn [bind]; try discriminate;
      intros H; injection H as <-; cbn [Re.match_atoms Re.match_atom];
      rewrite ?Ascii.eqb_refl, (IH q eq_refl); reflexivity.
Qed.

Lemma match_literal (a : string) (p : list Re.atom) (s : string) :
  Re.match_atoms (Re.literal a ++ p) (a ++ s) =
  match Re.match_atoms p s with
  | Some (m, r) => Some ((a ++ m)%string, r)
  | None => None
  end.
Proof.
  unfold Re.literal. induction a as [|c a IH];
    cbn [list_ascii_of_string map app append Re.match_atoms Re.match_atom].
  - destruct (Re.match_atoms p s) as [[m r] |]; reflexivity.
  - rewrite Ascii.eqb_refl, IH.
    destruct (Re.match_atoms p s) as [[m r] |]; reflexivity.
Qed.

(** Where the pattern matches, the text it is made of starts, and what
    was matched starts with it. *)
Lemma match_literal_prefix (a : string) (p : list Re.atom) (s m r : string) :
  Re.match_atoms (Re.literal a ++ p) s = Some (m, r) ->
  String.prefix a s = true /\ exists m', m = (a ++ m')%string.
Proof.
  unfold Re.literal. revert s m. induction a as [|c a IH]; intros s m;
    cbn [list_ascii_of_string map app Re.match_atoms Re.match_atom String.prefix].
  - intros _. split; [destruct s; reflexivity | exists m; reflexivity].
  - destruct s as [|d s]; [discriminate |].
    destruct (Ascii.eqb_spec d c) as [-> | N]; [| discriminate].
    destruct (Re.match_atoms _ s) as [[m1 r1] |] eqn:E; [| discriminate].
    intros H. injection H as <- <-.
    destruct (IH s m1 E) as [Hp [m' ->]].
    split; [| exists m'; reflexivity].
    cbn [String.prefix]. destruct (ascii_dec c c) as [_ | N]; [exact Hp | contradiction].
Qed.

Lemma search_match (p : list Re.atom) (s m r : string) :
  Re.match_atoms p s = Some (m, r) ->
  Re.search p s = Some (m ++ Re.lazy_body r)%string.
Proof. intros H. destruct s; cbn [Re.search]; rewrite H; reflexivity. Qed.

(** What the search returns starts with the heading. *)
Lemma search_heading (p : list Re.atom) (s g : string) :
  Re.search (Re.literal Re.HEADING ++ p) s = Some g ->
  exists z, g = (Re.HEADING ++ z)%string.
Proof.
  induction s as [|c s IH]; cbn [Re.search].
  - destruct (Re.match_atoms _ EmptyString) as [[m r] |] eqn:E; [| discriminate].
    destruct (match_literal_prefix _ _ _ _ _ E) as [H _]. discriminate H.
  - destruct (Re.match_atoms _ (String c s)) as [[m r] |] eqn:E; [| exact IH].
    destruct (match_literal_prefix _ _ _ _ _ E) as [_ [m' Em]].
    intros H. injection H as H. exists (m' ++ Re.lazy_body r)%string.
    rewrite <- H, Em. apply append_assoc.
Qed.

(** The search passes over the text before the first heading. *)
Lemma search_skip (p : list Re.atom) (pre t : string) :
  find_index Re.HEADING (pre ++ t) = Some (String.length pre) ->
  Re.search (Re.literal Re.HEADING ++ p) (pre ++ t)
  = Re.search (Re.literal Re.HEADING ++ p) t.
Proof.
  induction pre as [|c pre IH]; [reflexivity |].
  cbn [append find_index String.length Re.search].
  destruct (String.prefix Re.HEADING (String c (pre ++ t))) eqn:Hp; [discriminate |].
  destruct (Re.match_atoms _ (String c (pre ++ t))) as [[m r] |] eqn:E.
  - destruct (match_literal_prefix _ _ _ _ _ E) as [H _]. congruence.
  - destruct (find_index Re.HEADING (pre ++ t)) as [n |] eqn:F; [| discriminate].
    cbn [option_map]. intros H. injection H as ->. apply IH. reflexivity.
Qed.

(** Without a heading in the text the search finds nothing. *)
Lemma search_none (p : list Re.atom) (s : string) :
  find_index Re.HEADING s = None -> Re.search (Re.literal Re.HEADING ++ p) s = None.
Proof.
  induction s as [|c s IH]; cbn [find_index Re.search];
    destruct (String.prefix Re.HEADING _) eqn:Hp; try discriminate.
  - intros _. destruct (Re.match_atoms _ EmptyString) as [[m r] |] eqn:E;
      [| reflexivity].
    destruct (match_literal_prefix _ _ _ _ _ E) as [H _]. congruence.
  - destruct (Re.match_atoms _ (String c s)) as [[m r] |] eqn:E.
    + destruct (match_literal_prefix _ _ _ _ _ E) as [H _]. congruence.
    + destruct (find_index Re.HEADING s); [discriminate | intros _; apply IH; reflexivity].
Qed.

(** The text of a section ends where the next heading starts. *)
Lemma lazy_body_until (body next : string) :
  find_index Re.HEADING (body ++ next)
  = (if Str.is_empty next then None else Some (String.length body)) ->
  Re.lazy_body (body ++ next) = body.
Proof.
  induction body as [|c body IH]; cbn [append String.length].
  - destruct next as [|d next]; [reflexivity |].
    cbn [Str.is_empty find_index Re.lazy_body]. unfold Str.startswith.
    destruct (String.prefix Re.HEADING (String d next)); [reflexivity |].
    destruct (find_index Re.HEADING next); discriminate.
  - cbn [find_index Re.lazy_body]. unfold Str.startswith.
    destruct (String.prefix Re.HEADING (String c (body ++ next)));
      [destruct (Str.is_empty next); discriminate |].
    intros H. rewrite IH; [reflexivity |].
    destruct (find_index Re.HEADING (body ++ next)) as [n |]; cbn [option_map] in H;
      destruct (Str.is_empty next); try discriminate; [| reflexivity].
    injection H as ->. reflexivity.
Qed.

Lemma lazy_body_newline (s : string) :
  Re.lazy_body (String Str.LF s) = String Str.LF (Re.lazy_body s).
Proof. reflexivity. Qed.

(** *** The notes of a match *)

(** What the script makes of the text [g] of a match: lines 126-130. *)
Lemma notes_of_match (w : world) (vc : string) (data : Hashlib.bytes)
    (content : string) (p : list Re.atom) (g : string) :
  release_notes_md w = Some data ->
  Codecs.read_text data = Ok content ->
  Re.compile vc = Ok p ->
  Re.search p content = Some g ->
  extract_notes w vc =
  Ok (Str.strip (Str.join (String Str.LF EmptyString)
                   (tl (Str.split Str.LF (Str.strip g))))).
Proof.
  intros Hf Hr Hc Hs. unfold extract_notes. rewrite Hf, Hr. cbn [bind].
  rewrite Hc. cbn [bind]. rewrite Hs.
  unfold Re.compile in Hc. destruct (Re.parse vc) as [q | e |]; try discriminate.
  cbn [bind] in Hc. injection Hc as <-.
  destruct (search_heading _ _ _ Hs) as [z ->].
  destruct (heading_line z) as [line0 [lines' [E S]]].
  rewrite E, S. reflexivity.
Qed.

(** The text between the line of a heading and the next heading, as the
    script returns it. *)
Lemma section_notes (v body : string) :
  Str.contains Str.LF v = false ->
  Str.strip (Str.join (String Str.LF EmptyString)
               (tl (Str.split Str.LF
                      (Str.strip ((Re.HEADING ++ v) ++ String Str.LF body)))))
  = Str.strip body.
Proof.
  intros Hv. rewrite append_assoc.
  destruct (strip_heading (v ++ String Str.LF body)) as [z' [E Ez]]. rewrite E.
  rewrite rstrip_ws_app in Ez. cbn [Str.rstrip_ws] in Ez.
  change (Str.isspace Str.LF) with true in Ez. cbn [andb] in Ez.
  destruct (Str.rstrip_ws body) as [|d r] eqn:Eb; cbn [Str.is_empty] in Ez.
  - assert (Hz : Str.contains Str.LF z' = false).
    { rewrite Ez. destruct (Str.rstrip_ws v) as [|d r] eqn:Ev; [reflexivity |].
      cbn [Str.is_empty]. rewrite <- Ev. apply contains_rstrip_ws. exact Hv. }
    rewrite split_no_sep, (strip_blank body Eb).
    + reflexivity.
    + rewrite contains_append, Hz. reflexivity.
  - assert (Hz : z' = (v ++ String Str.LF (String d r))%string).
    { rewrite Ez. destruct v; reflexivity. }
    rewrite Hz, <- append_assoc, split_app.
    + cbn [tl]. rewrite join_split, <- Eb. apply strip_rstrip_ws.
    + rewrite contains_append, Hv. reflexivity.
Qed.

End NotesFacts.

Module LineFacts.
Import StrFacts NotesFacts.

(** Joining all lines but the first gives the text after the first line. *)
Lemma join_tl_split (s : string) :
  Str.join (String Str.LF EmptyString) (tl (Str.split Str.LF s)) = after_first_line s.
Proof.
  induction s as [|c s IH]; [reflexivity |].
  cbn [Str.split after_first_line].
  destruct (Ascii.eqb c Str.LF).
  - cbn [tl]. apply join_split.
  - destruct (Str.split Str.LF s) as [|l0 ls] eqn:E;
      [destruct (split_not_nil _ _ E) |].
    cbn [tl] in *. exact IH.
Qed.

End LineFacts.

(** *** Facts about the order of the search and of the manifest *)

Module KeyFacts.
Import StrFacts DictFacts FindFacts StripFacts PathFacts ScanFacts MatchFacts RunFacts.

Lemma lookup_file_In (name : string) (dir : list file) (f : file) :
  In f dir -> f_name f = name -> lookup_file name dir <> None.
Proof.
  unfold lookup_file. intros Hin Hn E.
  apply (find_none _ _ E) in Hin. rewrite Hn, String.eqb_refl in Hin.
  discriminate.
Qed.



(** [glob] raises for the empty pattern and for [.] only. *)
Lemma glob_raises (dir : list file) (p : string) (e : exn) :
  glob dir p = Raise e -> p = EmptyString \/ p = "."%string.
Proof.
  unfold glob. destruct p as [|c p]; [intros _; left; reflexivity |].
  cbn [Str.is_empty].
  destruct (Pathlib.is_wildcard_pattern _ || Str.contains "/" _); [discriminate |].
  destruct (String.eqb_spec (String c p) ".") as [-> | _];
    [intros _; right; reflexivity |].
  destruct (String.eqb (String c p) ".."); discriminate.
Qed.

(** For the patterns of a row of the platform table [find_asset] does
    not raise. *)
Lemma find_asset_no_raise (dir : list file) (vc key : string) (cfg : config)
    (e : exn) :
  In (key, cfg) (platform_configs vc) ->
  find_asset dir (patterns cfg) <> Raise e.
Proof.
  intros Hin.
  destruct (config_shape vc key cfg Hin) as [E [B [Hp [_ [_ [HB _]]]]]].
  rewrite Hp. cbn [find_asset].
  destruct (glob dir (("CodeSwitch-v" ++ vc) ++ E)) as [ms | e' |] eqn:G;
    cbn [bind]; [| | discriminate].
  - destruct ms; [| discriminate].
    rewrite (glob_of_plain dir B HB). cbn [bind].
    destruct (lookup_file B dir); discriminate.
  - destruct (glob_raises _ _ _ G) as [H | H]; discriminate H.
Qed.


(** *** What one platform prints and stores *)

Lemma check_cases (dir : list file) (f : file) (digest : string) (st st1 : state) :
  check_sha256_file dir f digest st = Ok st1 ->
  st1 = st
  \/ exists tok,
       st1 = print (from_file_line tok)
               (print (computed_line digest)
                  (print (warning_sha256_mismatch (f_name f)) st)).
Proof.
  unfold check_sha256_file.
  destruct (sha256_file_name (f_name f)) as [sname | e |]; cbn [bind];
    try discriminate.
  destruct (lookup_file sname dir) as [sf |];
    [| intros H; injection H as <-; left; reflexivity].
  destruct (Codecs.read_text (f_data sf)) as [text | e |]; cbn [bind];
    try discriminate.
  destruct (negb (Str.is_empty (Str.strip text)));
    [| intros H; injection H as <-; left; reflexivity].
  destruct (Str.item0 (Str.split_ws (Str.strip text))) as [tok | e |]; cbn [bind];
    try discriminate.
  destruct (negb (String.eqb (Str.lower tok) (Str.lower digest)));
    intros H; injection H as <-; [right; exists tok |left]; reflexivity.
Qed.

Lemma platform_cases (dir : list file) (base key : string) (cfg : config)
    (st st1 : state) :
  scan_platform dir base st (key, cfg) = Ok st1 ->
  (find_asset dir (patterns cfg) = Ok None
   /\ platform_record dir base (key, cfg) = None
   /\ platform_messages dir base (key, cfg) = [warning_no_asset key])
  \/ exists f,
       find_asset dir (patterns cfg) = Ok (Some f)
       /\ platform_record dir base (key, cfg)
          = Some (AssetRecord (base ++ "/" ++ filename cfg) (compute_sha256 f)
                    (get_file_size f))
       /\ (platform_messages dir base (key, cfg)
           = [found key (f_name f) (get_file_size f)]
           \/ exists tok,
                platform_messages dir base (key, cfg)
                = [warning_sha256_mismatch (f_name f);
                   computed_line (compute_sha256 f); from_file_line tok;
                   found key (f_name f) (get_file_size f)]).
Proof.
  intros H.
  destruct (scan_platform_any_state dir base (key, cfg) st st1 (State [] []) H)
    as [st0 H0].
  destruct (find_asset dir (patterns cfg)) as [[f |] | e |] eqn:F.
  - right. exists f. split; [reflexivity |].
    unfold scan_platform in H0. rewrite F in H0. cbn [bind] in H0.
    destruct (check_sha256_file dir f (compute_sha256 f) (State [] []))
      as [c | e |] eqn:C; try discriminate.
    destruct (matched_platform dir key cfg f F base c C) as [R M].
    split; [exact R |]. rewrite M.
    destruct (check_cases _ _ _ _ _ C) as [-> | [tok ->]];
      [left | right; exists tok]; reflexivity.
  - left. unfold platform_record, platform_messages, scan_platform.
    rewrite F. auto.
  - unfold scan_platform in H0. rewrite F in H0. discriminate.
  - unfold scan_platform in H0. rewrite F in H0. discriminate.
Qed.


(** *** What the loop stores *)

Lemma dict_set_fresh {V : Type} (d : dict V) (k : string) (v : V) :
  dict_get d k = None -> dict_set d k v = d ++ [(k, v)].
Proof.
  induction d as [|[k' v'] d IH]; cbn [dict_get dict_set app]; [reflexivity |].
  destruct (String.eqb k k'); [discriminate |].
  intros H. rewrite (IH H). reflexivity.
Qed.

Lemma scan_platforms_each (dir : list file) (base : string) (items : dict config) :
  forall st st',
    scan_platforms dir base st items = Ok st' ->
    forall item, In item items ->
      exists st0 st1, scan_platform dir base st0 item = Ok st1.
Proof.
  induction items as [|it items IH]; intros st st'; cbn [scan_platforms];
    [intros _ item [] |].
  destruct (scan_platform dir base st it) as [st1 | e |] eqn:E1; cbn [bind];
    try discriminate.
  intros H item [<- | Hin]; [exists st, st1; exact E1 | exact (IH st1 st' H item Hin)].
Qed.

(** The loop appends the records of the rows, in the order of the rows. *)
Lemma scan_platforms_records (dir : list file) (base : string) (items : dict config) :
  NoDup (map fst items) ->
  forall st st',
    (forall k, In k (map fst items) -> dict_get (st_platforms st) k = None) ->
    scan_platforms dir base st items = Ok st' ->
    st_platforms st' = st_platforms st ++ records dir base items.
Proof.
  unfold records.
  induction items as [|[k0 c0] items IH]; intros ND st st' Hfresh;
    cbn [scan_platforms flat_map map fst] in *.
  - intros H. injection H as <-. rewrite app_nil_r. reflexivity.
  - apply NoDup_cons_iff in ND. destruct ND as [N0 ND].
    destruct (scan_platform dir base st (k0, c0)) as [st1 | e |] eqn:E1;
      cbn [bind]; try discriminate.
    intros H.
    destruct (scan_platform_step dir base (k0, c0) st st1 E1) as [_ Hp1].
    cbn [fst] in Hp1.
    rewrite (IH ND st1 st'); [| | exact H].
    + rewrite Hp1. destruct (platform_record dir base (k0, c0)) as [rec |];
        [| reflexivity].
      rewrite dict_set_fresh by (apply Hfresh; left; reflexivity).
      rewrite <- app_assoc. reflexivity.
    + intros k Hk. rewrite Hp1.
      assert (Hn : k <> k0) by (intros ->; exact (N0 Hk)).
      destruct (platform_record dir base (k0, c0)) as [rec |].
      * rewrite dict_get_set_other by exact Hn. apply Hfresh. right. exact Hk.
      * apply Hfresh. right. exact Hk.
Qed.



(** One line that tells the outcome for each row: [Found] with a record,
    the warning without. *)
Lemma records_messages (dir : list file) (base : string) (items : dict config) :
  (forall item, In item items ->
     exists st0 st1, scan_platform dir base st0 item = Ok st1) ->
  let out := concat (map (platform_messages dir base) items) in
  length (filter is_found out) = length (records dir base items)
  /\ (length (filter is_warning_no_asset out) + length (records dir base items)
      = length items)%nat.
Proof.
  unfold records. induction items as [|[k0 c0] items IH]; intros Hall;
    cbn [map concat flat_map length]; [split; reflexivity |].
  destruct (Hall (k0, c0) (or_introl eq_refl)) as [st0 [st1 H]].
  destruct IH as [IH1 IH2]; [intros item Hin; apply Hall; right; exact Hin |].
  rewrite !filter_app, !length_app, IH1.
  destruct (platform_cases _ _ _ _ _ _ H)
    as [[_ [R M]] | [f [_ [R [M | [tok M]]]]]]; rewrite R, M;
    cbn [filter is_found is_warning_no_asset length fst app]; split; lia.
Qed.

End KeyFacts.

(** *** Facts about the ways a run ends *)

Module EndFacts.
Import StrFacts DictFacts FindFacts StripFacts PathFacts ScanFacts MatchFacts RunFacts.
Import NotesFacts KeyFacts.

Lemma utf8_decode_raises_upto (n : nat) :
  forall bs e, (length bs <= n)%nat ->
    Codecs.utf8_decode bs = Raise e -> e = UnicodeDecodeError.
Proof.
  induction n as [|n IH]; intros [|b rest] e Hn; cbn [length] in Hn;
    cbn [Codecs.utf8_decode]; try discriminate; [lia |].
  destruct (Hashlib.byte_val b <? 128).
  { destruct (Codecs.utf8_decode rest) as [s | e' |] eqn:E; cbn [bind];
      try discriminate.
    intros H. injection H as <-. apply (IH rest e'); [lia | exact E]. }
  destruct (Hashlib.byte_val b <? 194); [intros H; injection H as <-; reflexivity |].
  destruct (Hashlib.byte_val b <? 196); [| discriminate].
  destruct rest as [|b2 rest']; [intros H; injection H as <-; reflexivity |].
  destruct ((128 <=? Hashlib.byte_val b2) && (Hashlib.byte_val b2 <? 192));
    [| intros H; injection H as <-; reflexivity].
  destruct (Codecs.utf8_decode rest') as [s | e' |] eqn:E; cbn [bind];
    try discriminate.
  intros H. injection H as <-. apply (IH rest' e'); [cbn [length] in Hn; lia | exact E].
Qed.

(** Reading text fails in one way only. *)
Lemma read_text_raises (bs : Hashlib.bytes) (e : exn) :
  Codecs.read_text bs = Raise e -> e = UnicodeDecodeError.
Proof.
  unfold Codecs.read_text.
  destruct (Codecs.utf8_decode bs) as [s | e' |] eqn:E; cbn [bind]; try discriminate.
  intros H. injection H as <-.
  exact (utf8_decode_raises_upto (length bs) bs e' (le_n _) E).
Qed.

(** The comparison with the checksum file fails only if that file cannot
    be decoded: the first token is asked for only where there is one. *)
Lemma check_raises (dir : list file) (f : file) (digest : string) (st : state)
    (e : exn) :
  sha256_file_name (f_name f) = Ok (f_name f ++ ".sha256")%string ->
  check_sha256_file dir f digest st = Raise e ->
  e = UnicodeDecodeError
  /\ exists sf, In sf dir /\ f_name sf = (f_name f ++ ".sha256")%string
                /\ Codecs.read_text (f_data sf) = Raise UnicodeDecodeError.
Proof.
  intros Hn. unfold check_sha256_file. rewrite Hn. cbn [bind].
  destruct (lookup_file _ dir) as [sf |] eqn:L; [| discriminate].
  destruct (lookup_file_Some _ _ _ L) as [Hin Hname].
  destruct (Codecs.read_text (f_data sf)) as [text | e' |] eqn:R; cbn [bind];
    try discriminate.
  - destruct (Str.is_empty (Str.strip text)) eqn:E; cbn [negb]; [discriminate |].
    destruct (strip_split_ws text E) as [tok [toks T]]. rewrite T.
    cbn [Str.item0 bind].
    destruct (negb (String.eqb (Str.lower tok) (Str.lower digest))); discriminate.
  - intros H. injection H as <-.
    pose proof (read_text_raises _ _ R) as ->.
    split; [reflexivity |]. exists sf. auto.
Qed.

Lemma scan_platform_raises (dir : list file) (base vc key : string)
    (cfg : config) (st : state) (e : exn) :
  In (key, cfg) (platform_configs vc) ->
  scan_platform dir base st (key, cfg) = Raise e ->
  e = UnicodeDecodeError
  /\ exists sf x, In sf dir /\ f_name sf = (x ++ ".sha256")%string
                  /\ Codecs.read_text (f_data sf) = Raise UnicodeDecodeError.
Proof.
  intros Hin. unfold scan_platform.
  destruct (find_asset dir (patterns cfg)) as [[f |] | e' |] eqn:F; cbn [bind];
    try discriminate.
  - destruct (check_sha256_file dir f (compute_sha256 f) st) as [c | e' |] eqn:C;
      cbn [bind]; try discriminate.
    intros H. injection H as <-.
    destruct (check_raises dir f _ st e'
                (matched_sha256_file_name dir vc key cfg f Hin F) C)
      as [-> [sf [H1 [H2 H3]]]].
    split; [reflexivity |]. exists sf, (f_name f). auto.
  - destruct (find_asset_no_raise dir vc key cfg e' Hin F).
Qed.

(** *** The platforms of a directory that can be scanned *)

Lemma scan_platform_supported (dir : list file) (base vc key : string)
    (cfg : config) (st : state) :
  glob_plain vc = true -> checksum_files_in_range dir ->
  In (key, cfg) (platform_configs vc) ->
  scan_platform dir base st (key, cfg) <> Unsupported.
Proof.
  intros Hv Hr Hin.
  destruct (find_asset_total dir vc key cfg Hv Hin) as [[f |] F];
    unfold scan_platform; rewrite F; cbn [bind]; [| discriminate].
  unfold check_sha256_file.
  rewrite (matched_sha256_file_name dir vc key cfg f Hin F). cbn [bind].
  destruct (lookup_file _ dir) as [sf |] eqn:L; [| discriminate].
  destruct (lookup_file_Some _ _ _ L) as [Hsf Hname].
  destruct (Codecs.read_text (f_data sf)) as [text | e |] eqn:R; cbn [bind];
    [| discriminate | destruct (Hr sf (f_name f) Hsf Hname R)].
  destruct (Str.is_empty (Str.strip text)) eqn:E; cbn [negb]; [discriminate |].
  destruct (strip_split_ws text E) as [tok [toks T]]. rewrite T.
  cbn [Str.item0 bind].
  destruct (negb (String.eqb (Str.lower tok) (Str.lower (compute_sha256 f))));
    discriminate.
Qed.

(** Whether the body of the loop fails does not depend on the state. *)
Lemma scan_platform_raise_any_state (dir : list file) (base : string)
    (item : string * config) (st st' : state) (e : exn) :
  scan_platform dir base st item = Raise e ->
  scan_platform dir base st' item = Raise e.
Proof.
  destruct (scan_platform_frame dir base item) as [r Hr].
  rewrite Hr, (Hr st'). destruct r as [[entry msgs] | e' |]; try discriminate.
  intros H. exact H.
Qed.

(** The loop fails if the body fails for one row, where every row is
    within the embedding. *)
Lemma scan_platforms_raise_at (dir : list file) (base vc : string)
    (items : dict config) (it : string * config) (st0 : state) :
  glob_plain vc = true -> checksum_files_in_range dir ->
  incl items (platform_configs vc) ->
  In it items ->
  scan_platform dir base st0 it = Raise UnicodeDecodeError ->
  forall st, scan_platforms dir base st items = Raise UnicodeDecodeError.
Proof.
  intros Hv Hr. induction items as [|[k0 c0] items IH]; intros Hincl Hit Hraise st;
    [destruct Hit |].
  cbn [scan_platforms].
  destruct (scan_platform dir base st (k0, c0)) as [st1 | e |] eqn:E1; cbn [bind].
  - destruct Hit as [<- | Hit].
    + rewrite (scan_platform_raise_any_state dir base _ st0 st _ Hraise) in E1.
      discriminate.
    + apply IH; [intros x Hx; apply Hincl; right; exact Hx | exact Hit | exact Hraise].
  - destruct (scan_platform_raises dir base vc k0 c0 st e) as [-> _];
      [apply Hincl; left; reflexivity | exact E1 | reflexivity].
  - destruct (scan_platform_supported dir base vc k0 c0 st Hv Hr);
      [apply Hincl; left; reflexivity | exact E1].
Qed.

(** *** The parts of a run *)

(** A run that ends with status 0 has scanned the directory, read the
    notes, printed the manifest and written it. *)
Lemma main_exit0 (w : world) (argv : list string) (out : list message)
    (wr : option (string * manifest)) :
  main w argv = Exited 0 out wr ->
  let vc := version_clean_of argv in
  exists dir st notes_text,
    (3 <= length argv)%nat
    /\ listdir w (assets_dir_of argv) = Some dir
    /\ scan_platforms dir (base_url vc) (State [] []) (platform_configs vc) = Ok st
    /\ extract_notes w vc = Ok notes_text
    /\ st_platforms st = records dir (base_url vc) (platform_configs vc)
    /\ out = st_stdout st
             ++ [generated (output_of argv);
                 manifest_dump (Manifest ("v" ++ vc) (utcnow w) notes_text
                                  (st_platforms st))]
    /\ wr = Some (output_of argv,
                  Manifest ("v" ++ vc) (utcnow w) notes_text (st_platforms st)).
Proof.
  intros H vc. subst vc. revert H.
  unfold main, version_clean_of, assets_dir_of, output_of, output_file_of.
  destruct argv as [|prog [|version_arg [|assets_dir rest]]]; try discriminate.
  cbn [nth skipn length].
  destruct (listdir w assets_dir) as [dir |] eqn:Hdir; [| discriminate].
  destruct (scan_platforms dir _ _ _) as [st | e |] eqn:Hscan; try discriminate.
  destruct (extract_notes w _) as [n | e |] eqn:Hn; try discriminate.
  intros H. injection H as <- <-.
  exists dir, st, n.
  split; [lia |]. split; [reflexivity |]. split; [exact Hscan |].
  split; [reflexivity |].
  split; [| destruct rest; split; reflexivity].
  apply (scan_platforms_records dir _ _ (platform_keys_NoDup _) (State [] []) st);
    [reflexivity | exact Hscan].
Qed.

End EndFacts.

(** * The properties of the specification *)

Import StrFacts DictFacts FindFacts StripFacts PathFacts CaseFacts.
Import ScanFacts MatchFacts RunFacts WithoutFacts.

(** ** Checksum files *)

(** C1: when the first word of an asset's checksum file is not the
    computed digest, compared without regard to case, the run still
    completes with status 0, the loop prints for that platform the warning
    with the computed digest and the word of the file, and the manifest
    records the computed digest; when the word differs from the digest in
    the case of its letters only, the loop prints no warning. *)
Theorem sidecar_mismatch_warns_and_keeps_computed
    (w : world) (prog version_arg assets_dir : string) (rest : list string)
    (dir : list file) (notes_text key : string) (cfg : config) (f sf : file)
    (text tok : string) (toks : list string) :
  let vc := Str.lstrip "v" version_arg in
  let digest := compute_sha256 f in
  listdir w assets_dir = Some dir ->
  checksum_files_are_text dir ->
  extract_notes w vc = Ok notes_text ->
  In (key, cfg) (platform_configs vc) ->
  find_asset dir (patterns cfg) = Ok (Some f) ->
  lookup_file (f_name f ++ ".sha256") dir = Some sf ->
  Codecs.read_text (f_data sf) = Ok text ->
  Str.split_ws (Str.strip text) = tok :: toks ->
  exists plats,
    main w (prog :: version_arg :: assets_dir :: rest) =
      completed_run w vc dir (output_file_of rest) notes_text plats
    /\ dict_get plats key =
       Some (AssetRecord (base_url vc ++ "/" ++ filename cfg) digest
               (get_file_size f))
    /\ (Str.lower tok <> Str.lower digest ->
        platform_messages dir (base_url vc) (key, cfg) =
        [warning_sha256_mismatch (f_name f); computed_line digest;
         from_file_line tok; found key (f_name f) (get_file_size f)])
    /\ (differs_only_in_case tok digest = true ->
        platform_messages dir (base_url vc) (key, cfg) =
        [found key (f_name f) (get_file_size f)]).
Proof.
  intros vc digest Hdir Htext Hnotes Hin Hfind Hlook Hread Htok.
  pose proof (find_asset_plain dir vc key cfg _ Hin Hfind) as Hv.
  destruct (main_completes w prog version_arg assets_dir rest dir notes_text
              Hdir Hv Htext Hnotes) as [plats [Hmain Hget]].
  pose proof (check_token dir vc key cfg f Hin Hfind digest (State [] [])
                sf text tok toks Hlook Hread Htok) as Hcheck.
  destruct (matched_platform dir key cfg f Hfind (base_url vc) _ Hcheck)
    as [Hrec Hmsg].
  exists plats. split; [exact Hmain |]. split.
  - rewrite (Hget key cfg Hin). exact Hrec.
  - fold vc in Hmsg. rewrite Hmsg. split.
    + intros Hne. apply String.eqb_neq in Hne. rewrite Hne. reflexivity.
    + intros Hcase. apply differs_only_in_case_lower in Hcase.
      apply String.eqb_eq in Hcase. rewrite Hcase. reflexivity.
Qed.

Lemma sidecar_mismatch_witness :
  exists plats,
    main (Examples.world_of
            [Examples.appimage;
             Examples.checksum_file ("DEADBEEF  CodeSwitch-v2.6.23.AppImage" ++ Examples.NL)]
            (Some Examples.release_notes))
         (Examples.argv_of "2.6.23")
    = completed_run
        (Examples.world_of
            [Examples.appimage;
             Examples.checksum_file ("DEADBEEF  CodeSwitch-v2.6.23.AppImage" ++ Examples.NL)]
            (Some Examples.release_notes))
        "2.6.23"
        [Examples.appimage;
         Examples.checksum_file ("DEADBEEF  CodeSwitch-v2.6.23.AppImage" ++ Examples.NL)]
        "latest.json" "Foo" plats
    /\ option_map sha256 (dict_get plats "linux-x86_64")
       = Some (compute_sha256 Examples.appimage).
Proof.
  destruct (sidecar_mismatch_warns_and_keeps_computed
              (Examples.world_of
                 [Examples.appimage;
                  Examples.checksum_file
                    ("DEADBEEF  CodeSwitch-v2.6.23.AppImage" ++ Examples.NL)]
                 (Some Examples.release_notes))
              "generate-latest-json.py" "2.6.23" "release-assets" []
              [Examples.appimage;
               Examples.checksum_file
                 ("DEADBEEF  CodeSwitch-v2.6.23.AppImage" ++ Examples.NL)]
              "Foo" "linux-x86_64"
              (Config ["CodeSwitch-v2.6.23.AppImage"%string;
                       "CodeSwitch.AppImage"%string]
                 "CodeSwitch-v2.6.23.AppImage")
              Examples.appimage
              (Examples.checksum_file
                 ("DEADBEEF  CodeSwitch-v2.6.23.AppImage" ++ Examples.NL))
              ("DEADBEEF  CodeSwitch-v2.6.23.AppImage" ++ Examples.NL)
              "DEADBEEF" ["CodeSwitch-v2.6.23.AppImage"%string])
    as [plats [Hmain [Hget _]]].
  - reflexivity.
  - intros sf x [<- | [<- | []]] _; eexists; vm_compute; reflexivity.
  - vm_compute. reflexivity.
  - do 4 right. left. reflexivity.
  - vm_compute. reflexivity.
  - reflexivity.
  - vm_compute. reflexivity.
  - vm_compute. reflexivity.
  - exists plats. split; [exact Hmain |]. rewrite Hget. reflexivity.
Defined.


(** C8: the checksum file of a matched asset is the file called as the
    asset with [.sha256] after the whole name, the extension kept.  When
    no file of that name is in the directory nothing is compared; when
    there is one, it is the file that is read, and its first token is
    what is compared with the digest.  No other file of the directory
    has a part in the comparison: two directories that hold the same file
    under that name give the same comparison. *)
Theorem sidecar_name_appends_sha256
    (dir : list file) (vc key : string) (cfg : config) (f : file) :
  In (key, cfg) (platform_configs vc) ->
  find_asset dir (patterns cfg) = Ok (Some f) ->
  sha256_file_name (f_name f) = Ok (f_name f ++ ".sha256")%string
  /\ (forall digest st,
        lookup_file (f_name f ++ ".sha256") dir = None ->
        check_sha256_file dir f digest st = Ok st)
  /\ (forall digest st sf text tok toks,
        lookup_file (f_name f ++ ".sha256") dir = Some sf ->
        Codecs.read_text (f_data sf) = Ok text ->
        Str.split_ws (Str.strip text) = tok :: toks ->
        check_sha256_file dir f digest st =
        Ok (if String.eqb (Str.lower tok) (Str.lower digest) then st
            else print (from_file_line tok)
                   (print (computed_line digest)
                      (print (warning_sha256_mismatch (f_name f)) st))))
  /\ (forall dir' digest st,
        lookup_file (f_name f ++ ".sha256") dir'
        = lookup_file (f_name f ++ ".sha256") dir ->
        check_sha256_file dir' f digest st = check_sha256_file dir f digest st)
  /\ sha256_file_name "CodeSwitch-v2.6.23.AppImage"
     = Ok "CodeSwitch-v2.6.23.AppImage.sha256"%string.
Proof.
  intros Hin Hfind.
  pose proof (matched_sha256_file_name dir vc key cfg f Hin Hfind) as Hname.
  split; [exact Hname |]. split; [| split; [| split]].
  - intros digest st L. exact (check_no_file dir vc key cfg f Hin Hfind digest st L).
  - intros digest st sf text tok toks L R T.
    rewrite (check_token dir vc key cfg f Hin Hfind digest st sf text tok toks L R T).
    destruct (String.eqb (Str.lower tok) (Str.lower digest)); reflexivity.
  - intros dir' digest st E. unfold check_sha256_file.
    rewrite Hname. cbn [bind]. rewrite E. reflexivity.
  - reflexivity.
Qed.

Lemma sidecar_name_witness :
  sha256_file_name (f_name Examples.appimage)
  = Ok (f_name Examples.appimage ++ ".sha256")%string
  /\ check_sha256_file
       [Examples.appimage;
        File "CodeSwitch-v2.6.23.sha256" (Examples.bytes_of_string Examples.abc_digest);
        Examples.checksum_file ("DEADBEEF  CodeSwitch-v2.6.23.AppImage" ++ Examples.NL)]
       Examples.appimage Examples.abc_digest (State [] [])
     = Ok (State []
             [warning_sha256_mismatch "CodeSwitch-v2.6.23.AppImage";
              computed_line Examples.abc_digest;
              from_file_line "DEADBEEF"]).
Proof.
  destruct (sidecar_name_appends_sha256
              [Examples.appimage;
               File "CodeSwitch-v2.6.23.sha256"
                 (Examples.bytes_of_string Examples.abc_digest);
               Examples.checksum_file
                 ("DEADBEEF  CodeSwitch-v2.6.23.AppImage" ++ Examples.NL)]
              "2.6.23" "linux-x86_64"
              (Config ["CodeSwitch-v2.6.23.AppImage"%string;
                       "CodeSwitch.AppImage"%string]
                 "CodeSwitch-v2.6.23.AppImage")
              Examples.appimage)
    as [H1 [_ [H3 _]]].
  - do 4 right. left. reflexivity.
  - vm_compute. reflexivity.
  - split; [exact H1 |].
    exact (H3 Examples.abc_digest (State [] [])
             (Examples.checksum_file
                ("DEADBEEF  CodeSwitch-v2.6.23.AppImage" ++ Examples.NL))
             ("DEADBEEF  CodeSwitch-v2.6.23.AppImage" ++ Examples.NL)%string
             "DEADBEEF"%string ["CodeSwitch-v2.6.23.AppImage"%string]
             ltac:(vm_compute; reflexivity) ltac:(vm_compute; reflexivity)
             ltac:(vm_compute; reflexivity)).
Defined.

(** C9, as the code has it: when the checksum file of a matched asset
    holds nothing but white space, the run completes, the manifest has
    the record of the platform, and the loop prints for the platform the
    line of the found asset and nothing else: the empty checksum file is
    passed over in silence. *)
Theorem blank_sidecar_is_passed_over
    (w : world) (prog version_arg assets_dir : string) (rest : list string)
    (dir : list file) (notes_text key : string) (cfg : config) (f sf : file)
    (text : string) :
  let vc := Str.lstrip "v" version_arg in
  listdir w assets_dir = Some dir ->
  checksum_files_are_text dir ->
  extract_notes w vc = Ok notes_text ->
  In (key, cfg) (platform_configs vc) ->
  find_asset dir (patterns cfg) = Ok (Some f) ->
  lookup_file (f_name f ++ ".sha256") dir = Some sf ->
  Codecs.read_text (f_data sf) = Ok text ->
  Str.is_empty (Str.strip text) = true ->
  exists plats,
    main w (prog :: version_arg :: assets_dir :: rest) =
      completed_run w vc dir (output_file_of rest) notes_text plats
    /\ dict_get plats key =
       Some (AssetRecord (base_url vc ++ "/" ++ filename cfg)
               (compute_sha256 f) (get_file_size f))
    /\ platform_messages dir (base_url vc) (key, cfg) =
       [found key (f_name f) (get_file_size f)].
Proof.
  intros vc Hdir Htext Hnotes Hin Hfind Hlook Hread Hblank.
  pose proof (find_asset_plain dir vc key cfg _ Hin Hfind) as Hv.
  destruct (main_completes w prog version_arg assets_dir rest dir notes_text
              Hdir Hv Htext Hnotes) as [plats [Hmain Hget]].
  pose proof (check_blank dir vc key cfg f Hin Hfind (compute_sha256 f)
                (State [] []) sf text Hlook Hread Hblank) as Hcheck.
  destruct (matched_platform dir key cfg f Hfind (base_url vc) _ Hcheck)
    as [Hrec Hmsg].
  exists plats. split; [exact Hmain |]. split.
  - rewrite (Hget key cfg Hin). exact Hrec.
  - exact Hmsg.
Qed.

Lemma blank_sidecar_witness :
  platform_messages
    [Examples.appimage; Examples.checksum_file ("  " ++ Examples.NL)]
    (base_url "2.6.23")
    ("linux-x86_64"%string,
     Config ["CodeSwitch-v2.6.23.AppImage"%string; "CodeSwitch.AppImage"%string]
       "CodeSwitch-v2.6.23.AppImage")
  = [found "linux-x86_64" "CodeSwitch-v2.6.23.AppImage"
       (get_file_size Examples.appimage)].
Proof.
  destruct (blank_sidecar_is_passed_over
              (Examples.world_of
                 [Examples.appimage; Examples.checksum_file ("  " ++ Examples.NL)]
                 None)
              "generate-latest-json.py" "v2.6.23" "release-assets" []
              [Examples.appimage; Examples.checksum_file ("  " ++ Examples.NL)]
              "" "linux-x86_64"
              (Config ["CodeSwitch-v2.6.23.AppImage"%string;
                       "CodeSwitch.AppImage"%string]
                 "CodeSwitch-v2.6.23.AppImage")
              Examples.appimage
              (Examples.checksum_file ("  " ++ Examples.NL))
              ("  " ++ Examples.NL)%string)
    as [plats [_ [_ Hmsg]]].
  - reflexivity.
  - intros sf x [<- | [<- | []]] _; eexists; vm_compute; reflexivity.
  - reflexivity.
  - do 4 right. left. reflexivity.
  - vm_compute. reflexivity.
  - reflexivity.
  - vm_compute. reflexivity.
  - vm_compute. reflexivity.
  - exact Hmsg.
Defined.

(** C9, as the specification has it, fails: with a checksum file of white
    space only the run prints the four warnings of the platforms without
    an asset, the line of the found asset and the manifest, and no warning
    about the checksum file. *)
Lemma blank_sidecar_prints_no_warning :
  let dir := [Examples.appimage; Examples.checksum_file ("  " ++ Examples.NL)] in
  let m := Manifest "v2.6.23" "2025-01-01T00:00:00+00:00" ""
             [("linux-x86_64"%string, Examples.appimage_record)] in
  main (Examples.world_of dir None) (Examples.argv_of "v2.6.23")
  = Exited 0
      [warning_no_asset "windows-x86_64";
       warning_no_asset "windows-x86_64-installer";
       warning_no_asset "darwin-aarch64";
       warning_no_asset "darwin-x86_64";
       found "linux-x86_64" "CodeSwitch-v2.6.23.AppImage" 3;
       generated "latest.json";
       manifest_dump m]
      (Some ("latest.json"%string, m)).
Proof. vm_compute. reflexivity. Qed.

(** C10: when the checksum file of a matched asset strips to the empty
    string, its first word is not asked for (asking would raise
    [IndexError]); the run completes, and it is, output and manifest, the
    run on the same directory without the checksum file. *)
Theorem blank_sidecar_as_no_sidecar
    (w w' : world) (prog version_arg assets_dir : string) (rest : list string)
    (dir : list file) (notes_text key : string) (cfg : config) (f sf : file)
    (text : string) :
  let vc := Str.lstrip "v" version_arg in
  listdir w assets_dir = Some dir ->
  checksum_files_are_text dir ->
  extract_notes w vc = Ok notes_text ->
  In (key, cfg) (platform_configs vc) ->
  find_asset dir (patterns cfg) = Ok (Some f) ->
  lookup_file (f_name f ++ ".sha256") dir = Some sf ->
  Codecs.read_text (f_data sf) = Ok text ->
  Str.is_empty (Str.strip text) = true ->
  listdir w' assets_dir = Some (without_file (f_name f ++ ".sha256") dir) ->
  release_notes_md w' = release_notes_md w ->
  utcnow w' = utcnow w ->
  Str.item0 (Str.split_ws (Str.strip text)) = Raise IndexError
  /\ lookup_file (f_name f ++ ".sha256")
       (without_file (f_name f ++ ".sha256") dir) = None
  /\ exists plats,
       main w (prog :: version_arg :: assets_dir :: rest) =
         completed_run w vc dir (output_file_of rest) notes_text plats
       /\ dict_get plats key =
          Some (AssetRecord (base_url vc ++ "/" ++ filename cfg)
                  (compute_sha256 f) (get_file_size f))
       /\ main w' (prog :: version_arg :: assets_dir :: rest) =
          main w (prog :: version_arg :: assets_dir :: rest).
Proof.
  intros vc Hdir Htext Hnotes Hin Hfind Hlook Hread Hblank Hdir' Hrn Hnow.
  split; [| split].
  - destruct (Str.strip text); [reflexivity | discriminate Hblank].
  - apply lookup_without_same.
  - destruct (blank_sidecar_is_passed_over w prog version_arg assets_dir rest
                dir notes_text key cfg f sf text Hdir Htext Hnotes Hin Hfind
                Hlook Hread Hblank) as [plats [Hmain [Hget _]]].
    exists plats. split; [exact Hmain |]. split; [exact Hget |].
    unfold main. rewrite Hdir, Hdir'. fold vc.
    rewrite (scan_platforms_without_blank dir _ sf text Hlook Hread Hblank
               (base_url vc) vc (f_name f) (platform_configs vc) eq_refl
               (incl_refl _)).
    unfold extract_notes. rewrite Hrn, Hnow. reflexivity.
Qed.

Lemma blank_sidecar_as_no_sidecar_witness :
  main (Examples.world_of [Examples.appimage] None) (Examples.argv_of "v2.6.23")
  = main (Examples.world_of
            [Examples.appimage; Examples.checksum_file ("  " ++ Examples.NL)]
            None)
         (Examples.argv_of "v2.6.23").
Proof.
  destruct (blank_sidecar_as_no_sidecar
              (Examples.world_of
                 [Examples.appimage; Examples.checksum_file ("  " ++ Examples.NL)]
                 None)
              (Examples.world_of [Examples.appimage] None)
              "generate-latest-json.py" "v2.6.23" "release-assets" []
              [Examples.appimage; Examples.checksum_file ("  " ++ Examples.NL)]
              "" "linux-x86_64"
              (Config ["CodeSwitch-v2.6.23.AppImage"%string;
                       "CodeSwitch.AppImage"%string]
                 "CodeSwitch-v2.6.23.AppImage")
              Examples.appimage
              (Examples.checksum_file ("  " ++ Examples.NL))
              ("  " ++ Examples.NL)%string)
    as [_ [_ [plats [_ [_ Heq]]]]].
  - reflexivity.
  - intros sf x [<- | [<- | []]] _; eexists; vm_compute; reflexivity.
  - reflexivity.
  - do 4 right. left. reflexivity.
  - vm_compute. reflexivity.
  - reflexivity.
  - vm_compute. reflexivity.
  - vm_compute. reflexivity.
  - reflexivity.
  - reflexivity.
  - reflexivity.
  - exact Heq.
Defined.

(** ** Platforms without an asset *)

(** C5: when no pattern of a platform names a file of the directory, the
    run completes, the loop prints for the platform the warning that no
    asset was found, and the platform is no key of the manifest's
    platforms. *)
Theorem unmatched_platform_is_absent
    (w : world) (prog version_arg assets_dir : string) (rest : list string)
    (dir : list file) (notes_text key : string) (cfg : config) :
  let vc := Str.lstrip "v" version_arg in
  listdir w assets_dir = Some dir ->
  checksum_files_are_text dir ->
  extract_notes w vc = Ok notes_text ->
  In (key, cfg) (platform_configs vc) ->
  find_asset dir (patterns cfg) = Ok None ->
  exists plats,
    main w (prog :: version_arg :: assets_dir :: rest) =
      completed_run w vc dir (output_file_of rest) notes_text plats
    /\ platform_messages dir (base_url vc) (key, cfg) = [warning_no_asset key]
    /\ ~ In key (map fst plats).
Proof.
  intros vc Hdir Htext Hnotes Hin Hfind.
  pose proof (find_asset_plain dir vc key cfg _ Hin Hfind) as Hv.
  destruct (main_completes w prog version_arg assets_dir rest dir notes_text
              Hdir Hv Htext Hnotes) as [plats [Hmain Hget]].
  exists plats. split; [exact Hmain |]. split.
  - unfold platform_messages, scan_platform. rewrite Hfind. reflexivity.
  - apply dict_get_None. rewrite (Hget key cfg Hin).
    unfold platform_record, scan_platform. rewrite Hfind. reflexivity.
Qed.

Lemma unmatched_platform_witness :
  exists plats,
    main (Examples.world_of [Examples.appimage] None) (Examples.argv_of "2.6.23")
    = completed_run (Examples.world_of [Examples.appimage] None) "2.6.23"
        [Examples.appimage] "latest.json" "" plats
    /\ ~ In "darwin-aarch64"%string (map fst plats).
Proof.
  destruct (unmatched_platform_is_absent
              (Examples.world_of [Examples.appimage] None)
              "generate-latest-json.py" "2.6.23" "release-assets" []
              [Examples.appimage] "" "darwin-aarch64"
              (Config ["CodeSwitch-v2.6.23-macos-arm64.zip"%string;
                       "codeswitch-macos-arm64.zip"%string]
                 "CodeSwitch-v2.6.23-macos-arm64.zip"))
    as [plats [Hmain [_ Habs]]].
  - reflexivity.
  - intros sf x [<- | []] _; eexists; vm_compute; reflexivity.
  - reflexivity.
  - do 2 right. left. reflexivity.
  - vm_compute. reflexivity.
  - exists plats. split; [exact Hmain | exact Habs].
Defined.


(** ** The digest *)

(** C6: the digest of a file read in blocks of 4096 bytes is the SHA-256
    digest of its whole content hashed in one pass, in lowercase
    hexadecimal. *)
Theorem streaming_digest_is_one_pass_digest (f : file) :
  compute_sha256 f = Hashlib.sha256_hex (f_data f)
  /\ lower_hex (compute_sha256 f) = true.
Proof.
  split; [apply compute_sha256_one_pass |].
  rewrite compute_sha256_one_pass. apply sha256_hex_shape.
Qed.

(** C7: every record of a manifest that was written has a download URL,
    a digest of exactly 64 lowercase hexadecimal characters and a size
    that is not negative. *)
Theorem manifest_records_are_well_formed
    (w : world) (argv : list string) (status : Z) (out : list message)
    (o : string) (m : manifest) :
  main w argv = Exited status out (Some (o, m)) ->
  forall key r, In (key, r) (platforms m) ->
    url r <> EmptyString
    /\ well_formed_record r.
Proof.
  intros Hmain key r Hin.
  destruct (main_written w argv status out o m Hmain)
    as [prog [version_arg [assets_dir [rest [dir [st [_ [_ [Hscan [Hm _]]]]]]]]]].
  rewrite Hm in Hin. cbn [platforms] in Hin.
  assert (Hwf : well_formed_record r).
  { apply (scan_platforms_well_formed dir _ _ _ _ Hscan) with (k := key);
      [intros k0 r0 [] | exact Hin]. }
  split; [| exact Hwf].
  destruct Hwf as [Hurl _]. intros E. rewrite E in Hurl. discriminate Hurl.
Qed.

Lemma manifest_records_witness :
  well_formed_record Examples.appimage_record.
Proof.
  apply (manifest_records_are_well_formed
           (Examples.world_of [Examples.appimage] None)
           (Examples.argv_of "2.6.23") 0
           [warning_no_asset "windows-x86_64";
            warning_no_asset "windows-x86_64-installer";
            warning_no_asset "darwin-aarch64";
            warning_no_asset "darwin-x86_64";
            found "linux-x86_64" "CodeSwitch-v2.6.23.AppImage" 3;
            generated "latest.json";
            manifest_dump
              (Manifest "v2.6.23" "2025-01-01T00:00:00+00:00" ""
                 [("linux-x86_64"%string, Examples.appimage_record)])]
           "latest.json"
           (Manifest "v2.6.23" "2025-01-01T00:00:00+00:00" ""
              [("linux-x86_64"%string, Examples.appimage_record)])
           ltac:(vm_compute; reflexivity)
           "linux-x86_64" Examples.appimage_record).
  left. reflexivity.
Defined.

(** ** The version *)

(** C3: the version of a manifest that was written is one [v] and then
    the argument without its leading [v]s, so it has exactly one leading
    [v]; and a run on that version is the run on the argument: to
    normalise twice is to normalise once. *)
Theorem manifest_version_has_one_leading_v
    (w : world) (prog version_arg assets_dir : string) (rest : list string)
    (status : Z) (out : list message) (o : string) (m : manifest) :
  main w (prog :: version_arg :: assets_dir :: rest)
  = Exited status out (Some (o, m)) ->
  version m = String "v" (Str.lstrip "v" version_arg)
  /\ Str.startswith (Str.lstrip "v" version_arg) "v" = false
  /\ main w (prog :: version m :: assets_dir :: rest)
     = main w (prog :: version_arg :: assets_dir :: rest).
Proof.
  intros Hmain.
  destruct (main_written w _ status out o m Hmain)
    as [prog' [va [ad [rest' [dir [st [Hargv [_ [_ [Hm _]]]]]]]]]].
  injection Hargv as _ <- _ _.
  assert (Hv : version m = String "v" (Str.lstrip "v" version_arg)).
  { rewrite Hm. reflexivity. }
  split; [exact Hv |]. split; [apply lstrip_v_no_leading_v |].
  rewrite Hv. unfold main.
  rewrite lstrip_v_leading_v, lstrip_v_idempotent. reflexivity.
Qed.

Lemma manifest_version_witness :
  option_map (fun p => version (snd p))
    (output_written
       (main (Examples.world_of [Examples.appimage] None)
          (Examples.argv_of "2.6.23")))
  = Some "v2.6.23"%string
  /\ option_map (fun p => version (snd p))
       (output_written
          (main (Examples.world_of [Examples.appimage] None)
             (Examples.argv_of "v2.6.23")))
     = Some "v2.6.23"%string.
Proof.
  pose proof (manifest_version_has_one_leading_v
                (Examples.world_of [Examples.appimage] None)
                "generate-latest-json.py" "2.6.23" "release-assets" [] 0
                [warning_no_asset "windows-x86_64";
                 warning_no_asset "windows-x86_64-installer";
                 warning_no_asset "darwin-aarch64";
                 warning_no_asset "darwin-x86_64";
                 found "linux-x86_64" "CodeSwitch-v2.6.23.AppImage" 3;
                 generated "latest.json";
                 manifest_dump
                   (Manifest "v2.6.23" "2025-01-01T00:00:00+00:00" ""
                      [("linux-x86_64"%string, Examples.appimage_record)])]
                "latest.json"
                (Manifest "v2.6.23" "2025-01-01T00:00:00+00:00" ""
                   [("linux-x86_64"%string, Examples.appimage_record)])
                ltac:(vm_compute; reflexivity)) as [_ [_ Hsame]].
  cbn [version] in Hsame. unfold Examples.argv_of.
  rewrite Hsame. split; vm_compute; reflexivity.
Defined.


(** ** Release notes *)

(** C2, where the code parts from it: the version goes into the regular
    expression as it is, so its dots match any character.  For the
    version 2.6.23 a document whose only heading is
    [# Code Switch v2x6y23] holds the text [# Code Switch v2.6.23]
    nowhere, and yet the notes are the body of that heading, not the empty
    string.  Nor is the end of the version the end of the match: for the
    version 2.6.2 the notes are those of the heading of 2.6.23 before
    it. *)
Theorem notes_taken_from_another_heading :
  let doc := ("# Code Switch v2x6y23" ++ Examples.NL ++ "Foo")%string in
  let doc' := ("# Code Switch v2.6.23" ++ Examples.NL ++ "Foo" ++ Examples.NL
               ++ "# Code Switch v2.6.2" ++ Examples.NL ++ "Bar")%string in
  occurs "# Code Switch v2.6.23" doc = false
  /\ extract_notes (Examples.world_of [] (Some doc)) "2.6.23" = Ok "Foo"%string
  /\ extract_notes (Examples.world_of [] (Some doc')) "2.6.2" = Ok "Foo"%string.
Proof. vm_compute. repeat split. Qed.

(** ** The exit status *)

(** C4, where the code parts from it: with both arguments given and the
    assets directory there, a version that holds a closing parenthesis
    makes the search of the release notes raise [re.error]; the process
    ends with status 1 and writes nothing. *)
Theorem unbalanced_parenthesis_in_version_crashes :
  let w := Examples.world_of [Examples.appimage] (Some Examples.release_notes) in
  listdir w "release-assets" = Some [Examples.appimage]
  /\ main w (Examples.argv_of ")") = Crashed re_error
  /\ exit_status (main w (Examples.argv_of ")")) = Some 1
  /\ output_written (main w (Examples.argv_of ")")) = None.
Proof. vm_compute. repeat split. Qed.

(** * Further properties of the script *)

Import NotesFacts LineFacts KeyFacts EndFacts.

(** ** How a run ends *)

(** X1: [main] leaves through [sys.exit(1)] in two cases only, and writes
    nothing in either: with fewer than two arguments after the name of
    the program it prints the four lines of the usage, and with an assets
    directory that does not exist it prints the one line of the error. *)
Theorem exit_1_is_usage_or_missing_directory
    (w : world) (argv : list string) (out : list message)
    (wr : option (string * manifest)) :
  main w argv = Exited 1 out wr <->
  wr = None
  /\ (((length argv < 3)%nat /\ out = usage)
      \/ ((3 <= length argv)%nat
          /\ listdir w (assets_dir_of argv) = None
          /\ out = [error_assets_dir_not_found (assets_dir_of argv)])).
Proof.
  unfold main, assets_dir_of.
  destruct argv as [|prog [|version_arg [|assets_dir rest]]]; cbn [length nth].
  1-3: split;
    [ intros H; injection H as <- <-; split; [reflexivity |]; left; split;
        [lia | reflexivity]
    | intros [-> [[_ ->] | [Hl _]]]; [reflexivity | lia] ].
  destruct (listdir w assets_dir) as [dir |] eqn:Hdir.
  - split.
    + destruct (scan_platforms dir _ _ _) as [st | e |]; try discriminate.
      destruct (extract_notes w _) as [n | e |]; discriminate.
    + intros [_ [[Hl _] | [_ [Hn _]]]]; [lia | discriminate Hn].
  - split.
    + intros H. injection H as <- <-. split; [reflexivity |]. right.
      split; [lia |]. split; reflexivity.
    + intros [-> [[Hl _] | [_ [_ ->]]]]; [lia | reflexivity].
Qed.

(** X2: a manifest is written only by a run that ends with status 0.  It
    goes to the third argument, or to [latest.json] without one; the last
    two things the run prints are the name of that file and the manifest
    that it wrote, and the manifest holds the version with one [v] before
    it and the time of the run. *)
Theorem written_manifest_is_the_printed_one
    (w : world) (argv : list string) (o : string) (m : manifest) :
  output_written (main w argv) = Some (o, m) ->
  o = output_of argv
  /\ version m = ("v" ++ version_clean_of argv)%string
  /\ pub_date m = utcnow w
  /\ exists platform_lines,
       main w argv =
       Exited 0 (platform_lines ++ [generated o; manifest_dump m]) (Some (o, m)).
Proof.
  destruct (main w argv) as [status out wr | e |] eqn:Hmain; cbn [output_written];
    try discriminate.
  intros ->.
  destruct (main_written w argv status out o m Hmain)
    as [_ [_ [_ [_ [_ [_ [_ [_ [_ [_ [_ ->]]]]]]]]]]].
  destruct (main_exit0 w argv out _ Hmain)
    as [dir [st [n [_ [_ [_ [_ [_ [-> Hwr]]]]]]]]].
  injection Hwr as Ho Hm. subst o m. cbn [version pub_date].
  split; [reflexivity |]. split; [reflexivity |]. split; [reflexivity |].
  exists (st_stdout st). reflexivity.
Qed.

Lemma written_manifest_witness :
  version (Manifest "v2.6.23" "2025-01-01T00:00:00+00:00" ""
             [("linux-x86_64"%string, Examples.appimage_record)])
  = ("v" ++ version_clean_of (Examples.argv_of "v2.6.23" ++ ["out.json"%string]))%string.
Proof.
  apply (written_manifest_is_the_printed_one
           (Examples.world_of [Examples.appimage] None)
           (Examples.argv_of "v2.6.23" ++ ["out.json"%string])
           "out.json"
           (Manifest "v2.6.23" "2025-01-01T00:00:00+00:00" ""
              [("linux-x86_64"%string, Examples.appimage_record)])
           ltac:(vm_compute; reflexivity)).
Defined.

(** ** find_asset *)


(** ** The records of the manifest *)





(** X6: a run that writes a manifest prints one line of outcome for each
    of the five platforms: as many [Found] lines as the manifest has
    platforms, and a [No asset found] warning for each of the others. *)
Theorem one_outcome_line_for_each_platform
    (w : world) (argv : list string) (out : list message) (o : string)
    (m : manifest) :
  main w argv = Exited 0 out (Some (o, m)) ->
  length (filter is_found out) = length (platforms m)
  /\ (length (filter is_warning_no_asset out) + length (platforms m) = 5)%nat.
Proof.
  intros Hmain.
  destruct (main_exit0 w argv out _ Hmain)
    as [dir [st [n [_ [_ [Hscan [_ [Hrec [-> Hwr]]]]]]]]].
  injection Hwr as _ Hm. subst m. cbn [platforms]. rewrite Hrec.
  destruct (scan_platforms_spec _ _ _ _ _ Hscan) as [Hout _].
  cbn [st_stdout app] in Hout. rewrite Hout, !filter_app, !length_app.
  cbn [filter is_found is_warning_no_asset length].
  destruct (records_messages dir (base_url (version_clean_of argv))
              (platform_configs (version_clean_of argv))
              (scan_platforms_each _ _ _ _ _ Hscan)) as [H1 H2].
  cbn [platform_configs length] in H2. cbv zeta in H1, H2. lia.
Qed.

Lemma one_outcome_line_witness :
  length (filter is_found
            [warning_no_asset "windows-x86_64";
             warning_no_asset "windows-x86_64-installer";
             warning_no_asset "darwin-aarch64";
             warning_no_asset "darwin-x86_64";
             found "linux-x86_64" "CodeSwitch-v2.6.23.AppImage" 3;
             generated "latest.json";
             manifest_dump
               (Manifest "v2.6.23" "2025-01-01T00:00:00+00:00" ""
                  [("linux-x86_64"%string, Examples.appimage_record)])])
  = 1%nat.
Proof.
  apply (one_outcome_line_for_each_platform
           (Examples.world_of [Examples.appimage] None)
           (Examples.argv_of "2.6.23") _ "latest.json"
           (Manifest "v2.6.23" "2025-01-01T00:00:00+00:00" ""
              [("linux-x86_64"%string, Examples.appimage_record)])
           ltac:(vm_compute; reflexivity)).
Defined.



(** ** Runs that fail *)

(** X8: for a matched asset of a platform whose checksum file is not
    there, or is there and can be decoded, the comparison with the
    checksum file completes whatever the file holds, and leaves the
    platforms as they are: [with_suffix] takes the name of the asset, and
    the first token is asked for only of content that has one. *)
Theorem comparison_with_decodable_checksum_file_completes
    (dir : list file) (vc key : string) (cfg : config) (f : file)
    (digest : string) (st : state) :
  In (key, cfg) (platform_configs vc) ->
  find_asset dir (patterns cfg) = Ok (Some f) ->
  (forall sf, lookup_file (f_name f ++ ".sha256") dir = Some sf ->
     exists text, Codecs.read_text (f_data sf) = Ok text) ->
  exists st',
    check_sha256_file dir f digest st = Ok st'
    /\ st_platforms st' = st_platforms st
    /\ forall text, Str.is_empty (Str.strip text) = false ->
         exists tok, Str.item0 (Str.split_ws (Str.strip text)) = Ok tok.
Proof.
  intros Hin F Htext.
  assert (Htok : forall text, Str.is_empty (Str.strip text) = false ->
            exists tok, Str.item0 (Str.split_ws (Str.strip text)) = Ok tok).
  { intros text E. destruct (strip_split_ws text E) as [tok [toks T]].
    exists tok. rewrite T. reflexivity. }
  destruct (lookup_file (f_name f ++ ".sha256") dir) as [sf |] eqn:L.
  - destruct (Htext sf eq_refl) as [text R].
    destruct (Str.is_empty (Str.strip text)) eqn:E.
    + exists st. rewrite (check_blank dir vc key cfg f Hin F digest st sf text L R E).
      auto.
    + destruct (strip_split_ws text E) as [tok [toks T]].
      rewrite (check_token dir vc key cfg f Hin F digest st sf text tok toks L R T).
      eexists. split; [reflexivity |]. split; [| exact Htok].
      destruct (negb (String.eqb (Str.lower tok) (Str.lower digest))); reflexivity.
  - exists st. rewrite (check_no_file dir vc key cfg f Hin F digest st L). auto.
Qed.

Lemma comparison_completes_witness :
  exists st',
    check_sha256_file
      [Examples.appimage; Examples.checksum_file ("  " ++ Examples.NL)]
      Examples.appimage Examples.abc_digest (State [] [])
    = Ok st'
    /\ st_platforms st' = [].
Proof.
  destruct (comparison_with_decodable_checksum_file_completes
              [Examples.appimage; Examples.checksum_file ("  " ++ Examples.NL)]
              "2.6.23" "linux-x86_64" (snd MoreExamples.linux_row)
              Examples.appimage Examples.abc_digest (State [] []))
    as [st' [H1 [H2 _]]].
  - do 4 right. left. reflexivity.
  - vm_compute. reflexivity.
  - intros sf L. vm_compute in L. injection L as <-.
    eexists. vm_compute. reflexivity.
  - exists st'. split; [exact H1 | exact H2].
Defined.

(** X9: a checksum file that is not valid UTF-8, next to an asset that
    was found, ends the run with [UnicodeDecodeError] before anything is
    written: this is no warning. *)
Theorem undecodable_checksum_file_ends_the_run
    (w : world) (prog version_arg assets_dir : string) (rest : list string)
    (dir : list file) (key : string) (cfg : config) (f sf : file) :
  let vc := Str.lstrip "v" version_arg in
  listdir w assets_dir = Some dir ->
  checksum_files_in_range dir ->
  In (key, cfg) (platform_configs vc) ->
  find_asset dir (patterns cfg) = Ok (Some f) ->
  lookup_file (f_name f ++ ".sha256") dir = Some sf ->
  Codecs.read_text (f_data sf) = Raise UnicodeDecodeError ->
  main w (prog :: version_arg :: assets_dir :: rest) = Crashed UnicodeDecodeError.
Proof.
  intros vc Hdir Hrange Hin F L R.
  pose proof (find_asset_plain dir vc key cfg _ Hin F) as Hv.
  assert (Hraise : scan_platform dir (base_url vc) (State [] []) (key, cfg)
                   = Raise UnicodeDecodeError).
  { unfold scan_platform. rewrite F. cbn [bind]. unfold check_sha256_file.
    rewrite (matched_sha256_file_name dir vc key cfg f Hin F). cbn [bind].
    rewrite L, R. reflexivity. }
  unfold main. rewrite Hdir. fold vc.
  rewrite (scan_platforms_raise_at dir (base_url vc) vc (platform_configs vc)
             (key, cfg) (State [] []) Hv Hrange (incl_refl _) Hin Hraise).
  reflexivity.
Qed.

Lemma undecodable_checksum_file_witness :
  main (Examples.world_of [Examples.appimage; MoreExamples.broken_checksum_file] None)
    (Examples.argv_of "v2.6.23")
  = Crashed UnicodeDecodeError.
Proof.
  apply (undecodable_checksum_file_ends_the_run
           (Examples.world_of
              [Examples.appimage; MoreExamples.broken_checksum_file] None)
           "generate-latest-json.py" "v2.6.23" "release-assets" []
           [Examples.appimage; MoreExamples.broken_checksum_file]
           "linux-x86_64" (snd MoreExamples.linux_row)
           Examples.appimage MoreExamples.broken_checksum_file).
  - reflexivity.
  - intros sf x [<- | [<- | []]] _; vm_compute; discriminate.
  - do 4 right. left. reflexivity.
  - vm_compute. reflexivity.
  - reflexivity.
  - vm_compute. reflexivity.
Defined.

(** ** The release notes *)



(** X11: when the first [# Code Switch v] heading of the release notes is
    the one of the version, the notes are the text between the line of
    that heading and the next such heading, or the end of the file,
    without the white space around it.  The version is made of dots and
    of characters that stand for themselves, and is followed by the end
    of its line. *)
Theorem notes_are_the_body_of_the_first_section
    (w : world) (vc : string) (data : Hashlib.bytes) (pre body next : string) :
  let content :=
    (pre ++ (Re.HEADING ++ vc) ++ String Str.LF (body ++ next))%string in
  release_notes_md w = Some data ->
  Codecs.read_text data = Ok content ->
  dotted_version vc = true ->
  Str.contains Str.LF vc = false ->
  find_index Re.HEADING content = Some (String.length pre) ->
  find_index Re.HEADING (body ++ next)
  = (if Str.is_empty next then None else Some (String.length body)) ->
  extract_notes w vc = Ok (Str.strip body).
Proof.
  intros content Hf Hr Hd Hlf Hfirst Hnext.
  destruct (parse_dotted vc Hd) as [p Hp].
  assert (Hc : Re.compile vc = Ok (Re.literal Re.HEADING ++ p)).
  { unfold Re.compile. rewrite Hp. reflexivity. }
  assert (Hs : Re.search (Re.literal Re.HEADING ++ p) content
               = Some ((Re.HEADING ++ vc) ++ String Str.LF body)%string).
  { unfold content. rewrite (search_skip p pre _ Hfirst).
    rewrite (search_match _ _ (Re.HEADING ++ vc) (String Str.LF (body ++ next))).
    - rewrite lazy_body_newline, (lazy_body_until body next Hnext). reflexivity.
    - rewrite StrFacts.append_assoc, match_literal, (match_parse vc p _ Hp).
      reflexivity. }
  rewrite (notes_of_match w vc data content _ _ Hf Hr Hc Hs).
  rewrite (section_notes vc body Hlf). reflexivity.
Qed.

Lemma notes_of_first_section_witness :
  extract_notes (Examples.world_of [] (Some Examples.release_notes)) "2.6.23"
  = Ok "Foo"%string.
Proof.
  apply (notes_are_the_body_of_the_first_section
           (Examples.world_of [] (Some Examples.release_notes)) "2.6.23"
           (Examples.bytes_of_string Examples.release_notes)
           EmptyString ("Foo" ++ Examples.NL)
           ("# Code Switch v2.6.22" ++ Examples.NL ++ "Bar"));
    vm_compute; reflexivity.
Defined.

(** X12: when the release notes hold no [# Code Switch v] heading at
    all, the notes are empty, for every version made of dots and of
    characters that stand for themselves. *)
Theorem notes_are_empty_without_a_heading
    (w : world) (vc : string) (data : Hashlib.bytes) (content : string) :
  release_notes_md w = Some data ->
  Codecs.read_text data = Ok content ->
  dotted_version vc = true ->
  find_index Re.HEADING content = None ->
  extract_notes w vc = Ok EmptyString.
Proof.
  intros Hf Hr Hd Hnone.
  destruct (parse_dotted vc Hd) as [p Hp].
  unfold extract_notes, Re.compile. rewrite Hf, Hr. cbn [bind].
  rewrite Hp. cbn [bind]. rewrite (search_none p content Hnone). reflexivity.
Qed.

Lemma notes_without_heading_witness :
  extract_notes (Examples.world_of [] (Some "Release notes of Code Switch"%string))
    "2.6.23"
  = Ok EmptyString.
Proof.
  apply (notes_are_empty_without_a_heading
           (Examples.world_of [] (Some "Release notes of Code Switch"%string)) "2.6.23"
           (Examples.bytes_of_string "Release notes of Code Switch")
           "Release notes of Code Switch");
    vm_compute; reflexivity.
Defined.

(** X13: for a version made of dots and of characters that stand for
    themselves in a regular expression, the pattern can be searched for,
    and whenever the search finds a section the text found starts with
    [# Code Switch v]: the test for a heading line succeeds, and the notes
    are the text found, stripped, without its first line, stripped again.
    When the search finds nothing the notes are empty. *)
Theorem found_section_loses_its_heading_line
    (w : world) (vc : string) (data : Hashlib.bytes) (content : string) :
  release_notes_md w = Some data ->
  Codecs.read_text data = Ok content ->
  dotted_version vc = true ->
  exists pattern,
    Re.compile vc = Ok pattern
    /\ match Re.search pattern content with
       | Some group0 =>
           String.prefix Re.HEADING group0 = true
           /\ (exists line0 lines',
                 Str.split Str.LF (Str.strip group0) = line0 :: lines'
                 /\ Str.startswith line0 "# " = true)
           /\ extract_notes w vc
              = Ok (Str.strip (after_first_line (Str.strip group0)))
       | None => extract_notes w vc = Ok EmptyString
       end.
Proof.
  intros Hf Hr Hd.
  destruct (parse_dotted vc Hd) as [q Hq].
  assert (Hc : Re.compile vc = Ok (Re.literal Re.HEADING ++ q)).
  { unfold Re.compile. rewrite Hq. reflexivity. }
  exists (Re.literal Re.HEADING ++ q). split; [exact Hc |].
  destruct (Re.search (Re.literal Re.HEADING ++ q) content) as [group0 |] eqn:Hs.
  - destruct (search_heading _ _ _ Hs) as [z Hz].
    split; [rewrite Hz; apply StrFacts.prefix_append |]. split.
    + rewrite Hz. apply heading_line.
    + rewrite (notes_of_match w vc data content _ group0 Hf Hr Hc Hs).
      rewrite join_tl_split. reflexivity.
  - unfold extract_notes. rewrite Hf, Hr. cbn [bind]. rewrite Hc. cbn [bind].
    rewrite Hs. reflexivity.
Qed.

Lemma found_section_witness :
  exists pattern,
    Re.compile "2.6.23" = Ok pattern
    /\ match Re.search pattern "Notes.  # Code Switch v2x6y23 is out" with
       | Some group0 =>
           String.prefix Re.HEADING group0 = true
           /\ (exists line0 lines',
                 Str.split Str.LF (Str.strip group0) = line0 :: lines'
                 /\ Str.startswith line0 "# " = true)
           /\ extract_notes
                (Examples.world_of []
                   (Some "Notes.  # Code Switch v2x6y23 is out"%string)) "2.6.23"
              = Ok (Str.strip (after_first_line (Str.strip group0)))
       | None =>
           extract_notes
             (Examples.world_of []
                (Some "Notes.  # Code Switch v2x6y23 is out"%string)) "2.6.23"
           = Ok EmptyString
       end.
Proof.
  apply (found_section_loses_its_heading_line
           (Examples.world_of [] (Some "Notes.  # Code Switch v2x6y23 is out"%string))
           "2.6.23"
           (Examples.bytes_of_string "Notes.  # Code Switch v2x6y23 is out")
           "Notes.  # Code Switch v2x6y23 is out");
    vm_compute; reflexivity.
Defined.

